(** * upload_coatings_products: a shallow embedding of the upload script

    The development follows [upload_coatings_products.py]: Python values
    and exceptions, the Value Normalizer ([convert_to_json_safe]), the
    Batch Preparer ([prepare_batch]), the Table Clear ([clear_table]), the
    Upload Orchestrator ([upload_in_batches]) over an arbitrary store
    client, and the Record Cleaner ([clean_data]) over a small model of the
    pandas frame it manipulates. *)

From Stdlib Require Import ZArith List String Ascii Bool Lia.
From Stdlib Require Import Floats.SpecFloat.
From stdpp Require Import base option list strings gmap.

Set Warnings "-register-all".
Local Open Scope Z_scope.

(** ** Python values *)

Module Py.

(** An IEEE double is a [spec_float]: zero, infinity, NaN or [±m·2^e]. *)
Definition is_nan (x : spec_float) : bool :=
  match x with S754_nan => true | _ => false end.

Definition is_inf (x : spec_float) : bool :=
  match x with S754_infinity _ => true | _ => false end.

(** The values a cell of the spreadsheet, or an argument of
    [convert_to_json_safe], can be.  [NpInteger] and [NpFloating] are the
    boxed numpy scalars ([np.integer], [np.floating]); [PyFloat] is the
    plain Python float.  [PdTimestamp] carries the text [isoformat()]
    returns for it.  [PyObject] is any other object, known by the name of
    its type ([time], [Decimal], [bytes], ...). *)
Inductive value : Type :=
| PyNone
| PyBool (b : bool)
| PyInt (n : Z)
| PyFloat (x : spec_float)
| PyStr (s : string)
| PyList (items : list value)
| NpInteger (n : Z)
| NpFloating (x : spec_float)
| NdArray (items : list value)
| PdTimestamp (iso : string)
| PdNaT
| PdNA
| PyObject (type_name : string).

(** Exceptions: the class decides which [except] clause catches one,
    [exn_msg] is what [str(e)] returns. *)
Inductive exn_class : Type :=
| ValueError | TypeError | KeyError | JSONDecodeError | APIError | OtherError.

Record exn : Type := mkExn { exn_cls : exn_class; exn_msg : string }.

Definition is_JSONDecodeError (e : exn) : bool :=
  match exn_cls e with JSONDecodeError => true | _ => false end.

(** A computation that returns or raises. *)
Inductive result (A : Type) : Type :=
| Ok (a : A)
| Raise (e : exn).
Arguments Ok {A} a.
Arguments Raise {A} e.

#[export] Instance result_ret : MRet result := fun _ a => Ok a.
#[export] Instance result_bind : MBind result := fun _ _ f m =>
  match m with Ok a => f a | Raise e => Raise e end.

Definition returns {A} (m : result A) : Prop := exists a, m = Ok a.

(** [mapM]: a [for] loop that builds a list and stops at the first raise. *)
Fixpoint mapM {A B} (f : A -> result B) (l : list A) : result (list B) :=
  match l with
  | [] => Ok []
  | a :: l' => b ← f a; bs ← mapM f l'; Ok (b :: bs)
  end.

(** [foldM]: a [for] loop over [l] threading a state. *)
Fixpoint foldM {A S} (f : S -> A -> result S) (l : list A) (s : S) : result S :=
  match l with
  | [] => Ok s
  | a :: l' => s' ← f s a; foldM f l' s'
  end.

End Py.
Export Py.

(** ** Value Normalizer *)

(** [pd.isna] on one scalar ([libmissing.checknull]): [None], a NaN float
    (plain or boxed), [NaT] and [NA] are missing. *)
Definition checknull (v : value) : bool :=
  match v with
  | PyNone | PdNaT | PdNA => true
  | PyFloat x | NpFloating x => is_nan x
  | _ => false
  end.

(** What [pd.isna(obj)] returns: a bool for a scalar, an array of bools
    (one per element) for an array or a list. *)
Inductive isna_result : Type :=
| IsnaScalar (b : bool)
| IsnaArray (mask : list bool).

Definition pd_isna (obj : value) : isna_result :=
  match obj with
  | NdArray items | PyList items => IsnaArray (map checknull items)
  | _ => IsnaScalar (checknull obj)
  end.

(** The truth value Python takes of the left operand of [or].  numpy
    refuses it for an array that does not have exactly one element (for
    the empty one since numpy 2.2; older versions gave [False] with a
    deprecation warning). *)
Definition truth (r : isna_result) : result bool :=
  match r with
  | IsnaScalar b => Ok b
  | IsnaArray [b] => Ok b
  | IsnaArray [] =>
      Raise (mkExn ValueError "The truth value of an empty array is ambiguous.")
  | IsnaArray _ =>
      Raise (mkExn ValueError
        "The truth value of an array with more than one element is ambiguous. Use a.any() or a.all()")
  end.

(** [ndarray.tolist()]: boxed scalars come out as plain ones, nested arrays
    as nested lists. *)
Fixpoint tolist_item (v : value) : value :=
  match v with
  | NpInteger n => PyInt n
  | NpFloating x => PyFloat x
  | NdArray items => PyList (map tolist_item items)
  | _ => v
  end.

Definition tolist (items : list value) : value := PyList (map tolist_item items).

(** [convert_to_json_safe], lines 66-79.  [np.isnan] and [np.isinf] are
    false on every [np.integer]. *)
Definition convert_to_json_safe (obj : value) : result value :=
  na ← truth (pd_isna obj);
  if na || (match obj with PyNone => true | _ => false end) then Ok PyNone
  else match obj with
       | NpInteger n => Ok (PyInt n)
       | NpFloating x => if is_nan x || is_inf x then Ok PyNone else Ok (PyFloat x)
       | NdArray items => Ok (tolist items)
       | PdTimestamp iso => Ok (PyStr iso)
       | _ => Ok obj
       end.

(** "NaN or Infinity marker": a float that JSON has no number for,
    anywhere inside the value. *)
Fixpoint has_marker (v : value) : bool :=
  match v with
  | PyFloat x | NpFloating x => is_nan x || is_inf x
  | PyList items | NdArray items => existsb has_marker items
  | _ => false
  end.

Definition is_scalar (obj : value) : bool :=
  match obj with NdArray _ | PyList _ => false | _ => true end.

(** The values [convert_to_json_safe] has a branch for. *)
Definition is_classified (obj : value) : bool :=
  checknull obj ||
  match obj with
  | NpInteger _ | NpFloating _ | NdArray _ | PdTimestamp _ => true
  | _ => false
  end.

(** The double [m·2^e], and the double of an integer. *)
Definition dyadic (m e : Z) : spec_float :=
  match m with
  | Z0 => S754_zero false
  | Zpos p => S754_finite false p e
  | Zneg p => S754_finite true p e
  end.

Definition float_of_Z (n : Z) : spec_float := dyadic n 0.

(** ** Batch Preparer *)

(** A record is a dict from column name to value, kept in insertion
    order. *)
Definition row : Type := list (string * value).

Definition prepare_row (r : row) : result row :=
  mapM (fun kv => v ← convert_to_json_safe (snd kv); Ok (fst kv, v)) r.

(** [prepare_batch], lines 81-89. *)
Definition prepare_batch (batch : list row) : result (list row) :=
  mapM prepare_row batch.


(** ** Python built-ins the orchestrator uses *)

(** [s[:n]] *)
Definition str_prefix (n : nat) (s : string) : string := String.substring 0 n s.

(** [sub in s] *)
Definition str_in (sub s : string) : bool :=
  match String.index 0 sub s with Some _ => true | None => false end.

Definition ascii_lower (c : ascii) : ascii :=
  let n := nat_of_ascii c in
  if (Nat.leb 65 n && Nat.leb n 90)%bool then ascii_of_nat (n + 32) else c.

(** [s.lower()] *)
Fixpoint str_lower (s : string) : string :=
  match s with
  | EmptyString => EmptyString
  | String c s' => String (ascii_lower c) (str_lower s')
  end.

(** [d.get(key, default)] and [d[key]] on a dict. *)
Fixpoint dict_get {V} (d : list (string * V)) (key : string) (default : V) : V :=
  match d with
  | [] => default
  | (k, v) :: d' => if String.eqb k key then v else dict_get d' key default
  end.

Fixpoint dict_getitem {V} (d : list (string * V)) (key : string) : result V :=
  match d with
  | [] => Raise (mkExn KeyError key)
  | (k, v) :: d' => if String.eqb k key then Ok v else dict_getitem d' key
  end.

(** [range(start, stop, step)] *)
Definition py_range (start stop step : Z) : result (list Z) :=
  if step =? 0 then Raise (mkExn ValueError "range() arg 3 must not be zero")
  else
    let n := if 0 <? step then (stop - start + step - 1) / step
             else (start - stop - step - 1) / (- step) in
    Ok (map (fun k => start + Z.of_nat k * step) (seq 0 (Z.to_nat n))).

(** [l[lo:hi]]: a negative bound counts from the end, and both are clamped
    to the list. *)
Definition slice_bound (len k : Z) : Z :=
  if k <? 0 then Z.max (k + len) 0 else Z.min k len.

Definition py_slice {A} (l : list A) (lo hi : Z) : list A :=
  let len := Z.of_nat (length l) in
  let a := slice_bound len lo in
  let b := slice_bound len hi in
  firstn (Z.to_nat (b - a)) (skipn (Z.to_nat a) l).

(** [enumerate(l)] *)
Fixpoint enumerate_from {A} (k : Z) (l : list A) : list (Z * A) :=
  match l with
  | [] => []
  | a :: l' => (k, a) :: enumerate_from (k + 1) l'
  end.

Definition enumerate {A} (l : list A) : list (Z * A) := enumerate_from 0 l.

(** [json.dumps]: the name of the type [json] reports for a value. *)
Definition type_name (v : value) : string :=
  match v with
  | PyNone => "NoneType" | PyBool _ => "bool" | PyInt _ => "int"
  | PyFloat _ => "float" | PyStr _ => "str" | PyList _ => "list"
  | NpInteger _ => "int64" | NpFloating _ => "float64"
  | NdArray _ => "ndarray" | PdTimestamp _ => "Timestamp"
  | PdNaT => "NaTType" | PdNA => "NAType" | PyObject tn => tn
  end.

(** The first object inside [v] that the encoder has no rule for.
    [np.float64] is a subclass of [float] and is encoded as one; NaN and
    the infinities are written out ([allow_nan] is left at its default). *)
Fixpoint unserializable (v : value) : option value :=
  match v with
  | PyNone | PyBool _ | PyInt _ | PyFloat _ | PyStr _ | NpFloating _ => None
  | PyList items =>
      (fix first (l : list value) : option value :=
         match l with
         | [] => None
         | x :: l' => match unserializable x with Some o => Some o | None => first l' end
         end) items
  | _ => Some v
  end.

Definition not_serializable (o : value) : exn :=
  mkExn TypeError ("Object of type " +:+ type_name o +:+ " is not JSON serializable").

(** [json.dumps(row)], for its effect only: it returns, or raises
    [TypeError] at the first value it cannot encode. *)
Fixpoint json_dumps (r : row) : result unit :=
  match r with
  | [] => Ok tt
  | (_, v) :: r' =>
      match unserializable v with
      | Some o => Raise (not_serializable o)
      | None => json_dumps r'
      end
  end.

(** ** The store client *)

(** What is handed to [upsert] and [insert]: a list of records (the bulk
    call) or one record. *)
Inductive payload : Type :=
| Records (rows : list row)
| Record1 (r : row).

(** The remote table behind [supabase.table(name)]: each call takes the
    store from one state to the next and either returns or raises.
    [delete_neq name col v] is [.delete().neq(col, v).execute()]. *)
Record Client : Type := mkClient {
  store : Type;
  upsert : string -> payload -> store -> store * option exn;
  insert : string -> payload -> store -> store * option exn;
  delete_neq : string -> string -> value -> store -> store * option exn
}.

(** ** Table Clear *)

(** What the script prints, one constructor per [print] call, with the
    values its message is built from. *)
Inductive log_line : Type :=
| LogClearWarning (table_name : string)
| LogClearCancelled
| LogDeleting (table_name : string)
| LogCleared
| LogClearError (msg : string)
| LogStart (total_rows batch_size : Z) (mode : string)
| LogBatchOk (verb : string) (batch_num total_batches rows : Z)
| LogBatchFailed (batch_num total_batches : Z) (msg : string)
| LogIndividual (verb : string)
| LogRowJsonError (row_num : Z) (msg : string)
| LogRowDuplicate (row_num : Z) (sku : value)
| LogRowFailed (row_num : Z) (msg : string)
| LogSummary (total_rows successful failed : Z)
| LogSaving (n : Z)
| LogSaved.

(** [clear_table], lines 91-108.  [response] is what [input()] returned;
    the result is the store afterwards, the value returned and the lines
    printed. *)
Definition clear_table (supabase : Client) (table_name : string)
    (response : string) (db : store supabase) : store supabase * bool * list log_line :=
  if negb (String.eqb response "DELETE ALL") then
    (db, false, [LogClearWarning table_name; LogClearCancelled])
  else
    match delete_neq supabase table_name "sku" (PyStr "") db with
    | (db', None) =>
        (db', true, [LogClearWarning table_name; LogDeleting table_name; LogCleared])
    | (db', Some e) =>
        (db', false, [LogClearWarning table_name; LogDeleting table_name;
                      LogClearError (exn_msg e)])
    end.

(** ** Upload Orchestrator *)

(** An entry of [failed_rows]: [{'row': .., 'error': .., 'data': ..}]. *)
Record FailureRecord : Type := mkFailure {
  fr_row : Z;
  fr_error : string;
  fr_data : row
}.

Definition mode_text : list (string * string) :=
  [("insert", "inserting"); ("upsert", "upserting"); ("replace", "inserting")].

Section Upload.

Variable supabase : Client.
Variable table_name : string.
Variable data : list row.
Variable batch_size : Z.
Variable mode : string.

(** The local variables of [upload_in_batches] that change while it runs,
    with the store and the lines printed so far. *)
Record upload_state : Type := mkState {
  db : store supabase;
  successful : Z;
  failed : Z;
  failed_rows : list FailureRecord;
  stdout : list log_line
}.

Definition total_rows : Z := Z.of_nat (length data).

Definition print (line : log_line) (st : upload_state) : upload_state :=
  mkState (db st) (successful st) (failed st) (failed_rows st) (stdout st ++ [line]).

(** The write the requested mode selects, lines 135-144 and 158-161. *)
Definition write (p : payload) (s : store supabase) : store supabase * option exn :=
  if String.eqb mode "upsert" then upsert supabase table_name p s
  else insert supabase table_name p s.

(** The body of the inner [try], lines 154-161: serialise, then write. *)
Definition try_row (r : row) (s : store supabase) : store supabase * option exn :=
  match json_dumps r with
  | Raise e => (s, Some e)
  | Ok _ => write (Record1 r) s
  end.

(** One iteration of the per-record loop, lines 152-181; [i] is the
    position of the batch in the dataset. *)
Definition row_step (i : Z) (st : upload_state) (ir : Z * row) : upload_state :=
  let idx := fst ir in
  let r := snd ir in
  match try_row r (db st) with
  | (s', None) =>
      mkState s' (successful st + 1) (failed st) (failed_rows st) (stdout st)
  | (s', Some e) =>
      let row_num := i + idx in
      if is_JSONDecodeError e then
        mkState s' (successful st) (failed st + 1)
          (failed_rows st ++ [mkFailure row_num "JSON error" r])
          (stdout st ++ [LogRowJsonError row_num (str_prefix 100 (exn_msg e))])
      else
        let error_str := exn_msg e in
        let line :=
          if str_in "23505" error_str || str_in "duplicate key" (str_lower error_str)
          then LogRowDuplicate row_num (dict_get r "sku" (PyStr "unknown"))
          else LogRowFailed row_num (str_prefix 100 error_str) in
        mkState s' (successful st) (failed st + 1)
          (failed_rows st ++ [mkFailure row_num (str_prefix 200 error_str) r])
          (stdout st ++ [line])
  end.

(** One iteration of the batch loop, lines 126-184.  [prepare_batch] is
    called outside the [try], so a raise of the normalizer leaves the
    function; so does the [KeyError] of [mode_text[mode]].  The pause of
    line 184 changes nothing here. *)
Definition batch_step (st : upload_state) (i : Z) : result upload_state :=
  let batch := py_slice data i (i + batch_size) in
  let batch_num := i / batch_size + 1 in
  let total_batches := (total_rows + batch_size - 1) / batch_size in
  cleaned_batch ← prepare_batch batch;
  match write (Records cleaned_batch) (db st) with
  | (s', None) =>
      let verb := if String.eqb mode "upsert" then "upserted" else "uploaded" in
      Ok (mkState s' (successful st + Z.of_nat (length batch)) (failed st)
            (failed_rows st)
            (stdout st ++ [LogBatchOk verb batch_num total_batches (Z.of_nat (length batch))]))
  | (s', Some e) =>
      let error_msg := exn_msg e in
      let st1 := mkState s' (successful st) (failed st) (failed_rows st)
                   (stdout st ++ [LogBatchFailed batch_num total_batches
                                    (str_prefix 150 error_msg)]) in
      verb ← dict_getitem mode_text mode;
      Ok (fold_left (row_step i) (enumerate cleaned_batch) (print (LogIndividual verb) st1))
  end.

(** What a run leaves behind: the final state and, when some record
    failed, the list written to [failed_rows.json]. *)
Record upload_outcome : Type := mkOutcome {
  final : upload_state;
  failed_rows_json : option (list FailureRecord)
}.

(** [upload_in_batches], lines 110-198, started on the store [s]. *)
Definition upload_in_batches (s : store supabase) : result upload_outcome :=
  let st0 := mkState s 0 0 [] [LogStart total_rows batch_size mode] in
  starts ← py_range 0 total_rows batch_size;
  st ← foldM batch_step starts st0;
  let st' := print (LogSummary total_rows (successful st) (failed st)) st in
  match failed_rows st with
  | [] => Ok (mkOutcome st' None)
  | _ :: _ =>
      Ok (mkOutcome
            (print LogSaved (print (LogSaving (Z.of_nat (length (failed_rows st)))) st'))
            (Some (failed_rows st)))
  end.

(** The batches the loop cuts the dataset into, line 127. *)
Definition batches : result (list (list row)) :=
  starts ← py_range 0 total_rows batch_size;
  Ok (map (fun i => py_slice data i (i + batch_size)) starts).

End Upload.

Arguments db {supabase} _.
Arguments successful {supabase} _.
Arguments failed {supabase} _.
Arguments failed_rows {supabase} _.
Arguments stdout {supabase} _.
Arguments final {supabase} _.
Arguments failed_rows_json {supabase} _.

(** ** A keyed table as the remote store *)

(** Modelled from the spec: the remote table store is a service outside
    the script.  Following sections 3 and 6 and the glossary, it is a table
    keyed by the identifier column [sku]: [insert] fails on an identifier
    the table already has, [upsert] inserts a new row or updates the row
    with the same identifier, identifiers are text and never missing, and
    the delete of [clear_table] removes every row whose identifier differs
    from the given text.  A call either applies as a whole or leaves the
    table as it was. *)
Definition table : Type := list row.

Definition row_key (r : row) : option string :=
  match dict_get r "sku" PyNone with
  | PyStr s => Some s
  | _ => None
  end.

Definition keys (t : table) : list (option string) := map row_key t.

Definition has_key (k : string) (t : table) : bool :=
  existsb (fun r => match row_key r with Some k' => String.eqb k' k | None => false end) t.

Definition duplicate_key : exn :=
  mkExn APIError "duplicate key value violates unique constraint (23505)".

Definition missing_key : exn :=
  mkExn APIError "null value in column sku violates not-null constraint (23502)".

(** Replace the row whose identifier is [k] by [r]. *)
Fixpoint update_row (k : string) (r : row) (t : table) : table :=
  match t with
  | [] => []
  | r0 :: t' =>
      match row_key r0 with
      | Some k0 => if String.eqb k0 k then r :: t' else r0 :: update_row k r t'
      | None => r0 :: update_row k r t'
      end
  end.

(** Modelled from the spec: [insert] of one record, "fail on duplicate
    identifier"; a record without identifier is rejected. *)
Definition insert_row (t : table) (r : row) : result table :=
  match row_key r with
  | None => Raise missing_key
  | Some k => if has_key k t then Raise duplicate_key else Ok (t ++ [r])
  end.

(** Modelled from the spec: [upsert] of one record, "insert-or-update by
    identifier"; a record without identifier is rejected. *)
Definition upsert_row (t : table) (r : row) : result table :=
  match row_key r with
  | None => Raise missing_key
  | Some k => if has_key k t then Ok (update_row k r t) else Ok (t ++ [r])
  end.

Definition rows_of (p : payload) : list row :=
  match p with Records rows => rows | Record1 r => [r] end.

Definition all_or_nothing (t : table) (r : result table) : table * option exn :=
  match r with
  | Ok t' => (t', None)
  | Raise e => (t, Some e)
  end.

Definition delete_rows_neq (col : string) (v : value) (t : table) : table :=
  List.filter (fun r => match dict_get r col PyNone, v with
                   | PyStr s, PyStr s' => String.eqb s s'
                   | _, _ => true
                   end) t.

(** Modelled from the spec: the store client over the keyed table; a
    bulk call applies its records in order. *)
Definition table_client : Client :=
  mkClient table
    (fun _ p t => all_or_nothing t (foldM upsert_row (rows_of p) t))
    (fun _ p t => all_or_nothing t (foldM insert_row (rows_of p) t))
    (fun _ col v t => (delete_rows_neq col v t, None)).

(** A store whose bulk calls always fail and whose single-record calls
    always succeed; it counts the records it accepted. *)
Definition singles_only_client : Client :=
  mkClient nat
    (fun _ p n => match p with
                  | Records _ => (n, Some (mkExn APIError "payload too large"))
                  | Record1 _ => (S n, None)
                  end)
    (fun _ p n => match p with
                  | Records _ => (n, Some (mkExn APIError "payload too large"))
                  | Record1 _ => (S n, None)
                  end)
    (fun _ _ _ n => (O, None)).

(** ** Notions the statements about the orchestrator use *)

(** The error text a failed attempt leaves in its entry, lines 168 and
    181. *)
Definition error_text (e : exn) : string :=
  if is_JSONDecodeError e then "JSON error" else str_prefix 200 (exn_msg e).

(** [line] reports the failure of the record at position [n]. *)
Definition row_failure_line (n : Z) (line : log_line) : bool :=
  match line with
  | LogRowJsonError m _ | LogRowDuplicate m _ | LogRowFailed m _ => m =? n
  | _ => false
  end.

(** [line] reports the failure of the bulk call of batch number [bn]. *)
Definition batch_failure_line (bn : Z) (line : log_line) : bool :=
  match line with
  | LogBatchFailed m _ _ => m =? bn
  | _ => false
  end.

(** Every individual attempt of the fallback over [rows] succeeds, each
    one taken in the store state the previous ones left. *)
Fixpoint singles_succeed (supabase : Client) (table_name mode : string)
    (rows : list row) (s : store supabase) : bool :=
  match rows with
  | [] => true
  | r :: rows' =>
      match try_row supabase table_name mode r s with
      | (s', None) => singles_succeed supabase table_name mode rows' s'
      | (_, Some _) => false
      end
  end.

(** The record a failure entry is about: the one at position [fr_row] of
    the dataset, as the Batch Preparer normalised it. *)
Definition failure_of_row (data : list row) (f : FailureRecord) : Prop :=
  0 <= fr_row f /\
  exists r, data !! Z.to_nat (fr_row f) = Some r /\ prepare_row r = Ok (fr_data f).

(** Both attempts on the record of [f] failed: the lines printed say that
    the bulk call of its batch failed and that its own attempt failed. *)
Definition failed_twice (batch_size : Z) (out : list log_line) (f : FailureRecord) : Prop :=
  (exists line, In line out /\ batch_failure_line (fr_row f / batch_size + 1) line = true) /\
  (exists line, In line out /\ row_failure_line (fr_row f) line = true).

(** What holds of the state of a run after the batches starting at [pre]:
    every record of these batches is counted once, every failure has its
    entry, and every entry is about a record that failed twice. *)
Definition run_invariant (supabase : Client) (data : list row) (batch_size : Z)
    (pre : list Z) (st : upload_state supabase) : Prop :=
  successful st + failed st =
    Z.of_nat (length (concat (map (fun i => py_slice data i (i + batch_size)) pre))) /\
  failed st = Z.of_nat (length (failed_rows st)) /\
  Forall (fun f =>
    (String.length (fr_error f) <= 200)%nat /\
    failure_of_row data f /\
    failed_twice batch_size (stdout st) f) (failed_rows st).

(** ** Sample runs *)

(** Three records: two share an identifier, the third has none. *)
Definition sample_rows : list row :=
  [ [("sku", PyStr "A-1"); ("thickness", NpFloating (float_of_Z 2))];
    [("sku", PyStr "A-1"); ("thickness", PyFloat S754_nan)];
    [("sku", PyNone); ("thickness", PyInt 3)] ].

(** Two records, the first with a cell [json.dumps] cannot encode (an
    Excel time cell is read as a [datetime.time]). *)
Definition rows_with_time : list row :=
  [ [("sku", PyStr "A-1"); ("opened", PyObject "time")];
    [("sku", PyStr "A-2"); ("opened", PyNone)] ].

(** The table holds the record [r]: the row the Batch Preparer makes of it
    has an identifier, and the table has a row with that identifier. *)
Definition stored (t : table) (r : row) : Prop :=
  exists r' k, prepare_row r = Ok r' /\ row_key r' = Some k /\ has_key k t = true.

Definition keyed_in (t : table) (r' : row) : Prop :=
  exists k, row_key r' = Some k /\ has_key k t = true.

(** Three records with identifiers, the third one a later version of the
    first. *)
Definition keyed_rows : list row :=
  [ [("sku", PyStr "A-1"); ("thickness", PyInt 2)];
    [("sku", PyStr "A-2"); ("thickness", PyInt 3)];
    [("sku", PyStr "A-1"); ("thickness", PyInt 5)] ].

(** ** Record Cleaner *)

(** *** Doubles as numbers *)

Definition signed (s : bool) (m : positive) : Z := if s then Zneg m else Zpos m.

(** The integer part of a finite double, towards zero; [0] for the
    others. *)
Definition trunc (x : spec_float) : Z :=
  match x with
  | S754_finite s m e =>
      if 0 <=? e then signed s m * 2 ^ e
      else if s then - (Zpos m / 2 ^ (- e)) else Zpos m / 2 ^ (- e)
  | _ => 0
  end.

(** [x == n] for a double and an integer: whether they are the same
    number. *)
Definition float_eq_Z (x : spec_float) (n : Z) : bool :=
  match x with
  | S754_zero _ => n =? 0
  | S754_finite s m e =>
      if 0 <=? e then signed s m * 2 ^ e =? n else signed s m =? n * 2 ^ (- e)
  | _ => false
  end.

Definition in_int64 (n : Z) : bool := (- 2 ^ 63 <=? n) && (n <? 2 ^ 63).

(** The cast of a finite double to [int64]: the integer part, or the
    smallest [int64] when that does not fit. *)
Definition to_int64 (x : spec_float) : Z :=
  if in_int64 (trunc x) then trunc x else - 2 ^ 63.

(** "Equals its own truncation". *)
Definition is_integral (x : spec_float) : bool := float_eq_Z x (trunc x).

(** *** Frames *)

(** A column of a frame, by dtype: [float64] (NaN is its missing value),
    the nullable [Int64] ([None] is [pd.NA]), [int64], and [object]. *)
Inductive column : Type :=
| Float64 (xs : list spec_float)
| NullableInt64 (xs : list (option Z))
| Int64 (xs : list Z)
| Object (xs : list value).

(** A frame maps each column name to its column; names are distinct, as in
    a frame [read_excel] builds. *)
Abbreviation DataFrame := (gmap string column).

Definition is_missing_float (x : spec_float) : bool := is_nan x || is_inf x.

(** Some cell of some [float64] column is NaN or infinite. *)
Definition float_block_hit (df : DataFrame) : bool :=
  existsb (fun nc => match snd nc with
                     | Float64 xs => existsb is_missing_float xs
                     | _ => false
                     end) (map_to_list df).

Definition replace_float (x : spec_float) : value :=
  if is_missing_float x then PyNone else PyFloat x.

Definition replace_object (v : value) : value :=
  if checknull v
     || match v with PyFloat x | NpFloating x => is_inf x | _ => false end
  then PyNone else v.

Definition replace_nullable (o : option Z) : value :=
  match o with Some n => PyInt n | None => PyNone end.

(** [df.replace([np.nan, np.inf, -np.inf], None)] on one column, line 47.
    The value [None] is honoured as such (pandas 1.4 and later), and no
    numeric dtype can hold it: the [float64] columns of a frame share one
    block, which is cast to [object] as a whole as soon as one of its cells
    matches ([hit]); a nullable column is cast when it has a missing cell;
    an [int64] column has nothing to replace. *)
Definition replace_column (hit : bool) (c : column) : column :=
  match c with
  | Float64 xs => if hit then Object (map replace_float xs) else c
  | NullableInt64 xs =>
      if existsb (fun o => match o with None => true | Some _ => false end) xs
      then Object (map replace_nullable xs) else c
  | Int64 _ => c
  | Object xs => Object (map replace_object xs)
  end.

Definition df_replace (df : DataFrame) : DataFrame :=
  replace_column (float_block_hit df) <$> df.

(** [df.where(pd.notna(df), None)] on one column, line 50: only an
    [object] column can take the [None]. *)
Definition where_notna_column (c : column) : column :=
  match c with
  | Object xs => Object (map (fun v => if checknull v then PyNone else v) xs)
  | _ => c
  end.

Definition df_where_notna (df : DataFrame) : DataFrame := where_notna_column <$> df.

(** [s.dropna()] on the values of a [float64] column. *)
Definition dropna (xs : list spec_float) : list spec_float :=
  List.filter (fun x => negb (is_nan x)) xs.

(** [s.astype(int)]: pandas refuses a value that is not finite. *)
Definition astype_int (xs : list spec_float) : result (list Z) :=
  if existsb is_missing_float xs
  then Raise (mkExn ValueError "Cannot convert non-finite values (NA or inf) to integer")
  else Ok (map to_int64 xs).

(** [all(a == b)] for a [float64] and an [int64] series of one length. *)
Fixpoint all_eq (xs : list spec_float) (ns : list Z) : bool :=
  match xs, ns with
  | x :: xs', n :: ns' => float_eq_Z x n && all_eq xs' ns'
  | _, _ => true
  end.

(** [s.astype('Int64')] on a [float64] column. *)
Definition astype_Int64 (xs : list spec_float) : column :=
  NullableInt64 (map (fun x => if is_nan x then None else Some (to_int64 x)) xs).

(** Lines 54-58 for one column: the column to assign, if any. *)
Definition recast (c : column) : result (option column) :=
  match c with
  | Float64 xs =>
      let non_null := dropna xs in
      if (0 <? length non_null)%nat then
        ints ← astype_int non_null;
        if all_eq non_null ints then Ok (Some (astype_Int64 xs)) else Ok None
      else Ok None
  | _ => Ok None
  end.

(** [str.strip()] *)
Definition is_space (c : ascii) : bool :=
  let n := nat_of_ascii c in
  ((9 <=? n) && (n <=? 13) || (28 <=? n) && (n <=? 32))%nat.

Fixpoint lstrip (s : string) : string :=
  match s with
  | EmptyString => EmptyString
  | String c s' => if is_space c then lstrip s' else s
  end.

Fixpoint rstrip (s : string) : string :=
  match s with
  | EmptyString => EmptyString
  | String c s' =>
      match rstrip s' with
      | EmptyString => if is_space c then EmptyString else String c EmptyString
      | t => String c t
      end
  end.

Definition strip (s : string) : string := rstrip (lstrip s).

(** Line 62 on the cells of one column. *)
Definition strip_cell (x : value) : value :=
  match x with PyStr s => PyStr (strip s) | _ => x end.

Definition is_object (c : column) : bool :=
  match c with Object _ => true | _ => false end.

(** *** Frames as objects *)

(** Frames are objects: a variable holds a reference into the heap, and
    [df[col] = ...] changes the frame the reference points to. *)
Abbreviation heap := (list DataFrame).

Definition alloc (h : heap) (f : DataFrame) : heap * nat := (h ++ [f], length h).

Definition deref (h : heap) (r : nat) : result DataFrame :=
  match h !! r with
  | Some f => Ok f
  | None => Raise (mkExn OtherError "no such object")
  end.

(** [df[col]] *)
Definition getitem (h : heap) (df : nat) (col : string) : result column :=
  f ← deref h df;
  match f !! col with
  | Some c => Ok c
  | None => Raise (mkExn KeyError col)
  end.

(** [df[col] = c] *)
Definition setitem (h : heap) (df : nat) (col : string) (c : column) : result heap :=
  f ← deref h df;
  Ok (<[df := <[col := c]> f]> h).

(** [df.columns] *)
Definition columns (f : DataFrame) : list string := (map_to_list f).*1.

(** The body of the loop of lines 53-58. *)
Definition recast_step (df : nat) (h : heap) (col : string) : result heap :=
  c ← getitem h df col;
  new ← recast c;
  match new with
  | Some c' => setitem h df col c'
  | None => Ok h
  end.

(** The body of the loop of lines 61-62. *)
Definition strip_step (df : nat) (h : heap) (col : string) : result heap :=
  c ← getitem h df col;
  match c with
  | Object xs => setitem h df col (Object (map strip_cell xs))
  | _ => setitem h df col c
  end.

(** [clean_data], lines 42-64 (the progress line it prints is left
    out): [df] is the caller's frame, the result is the heap afterwards
    and the frame returned.  [replace] and [where]
    each build a new frame, to which the local name is bound; the two
    loops assign into that last frame. *)
Definition clean_data (h : heap) (df : nat) : result (heap * nat) :=
  f0 ← deref h df;
  let (h1, df1) := alloc h (df_replace f0) in
  f1 ← deref h1 df1;
  let (h2, df2) := alloc h1 (df_where_notna f1) in
  f2 ← deref h2 df2;
  h3 ← foldM (recast_step df2) (columns f2) h2;
  f3 ← deref h3 df2;
  h4 ← foldM (strip_step df2) (columns (filter (fun nc => is_object (snd nc) = true) f3)) h3;
  Ok (h4, df2).

(** What [clean_data] makes of one column of a frame. *)
Definition recast_column (c : column) : column :=
  match c with
  | Float64 xs =>
      if (0 <? length xs)%nat && forallb (fun x => is_integral x && in_int64 (trunc x)) xs
      then NullableInt64 (map (fun x => Some (trunc x)) xs)
      else c
  | _ => c
  end.

Definition strip_column (c : column) : column :=
  match c with Object xs => Object (map strip_cell xs) | _ => c end.


Definition one_two_four : list spec_float :=
  [float_of_Z 1; float_of_Z 2; float_of_Z 4].

Definition one_and_two_and_a_half : list spec_float :=
  [float_of_Z 1; dyadic 5 (-1)].

(** The frame [clean_data] returns for the frame [f]. *)
Definition clean_frame (f : DataFrame) : DataFrame :=
  strip_column <$> (recast_column <$> df_where_notna (df_replace f)).

(** A loop over column names that reads a column and may assign to it. *)
Definition assign_step (g : column -> result (option column))
    (df : nat) (h : heap) (col : string) : result heap :=
  c ← getitem h df col;
  new ← g c;
  match new with
  | Some c' => setitem h df col c'
  | None => Ok h
  end.

(** A column whose doubles, if it holds doubles, are all finite. *)
Definition clean_floats (c : column) : Prop :=
  forall xs, c = Float64 xs -> existsb is_missing_float xs = false.

(** ** Further notions: the normalizer and the preparer *)

(** The cells a spreadsheet read by pandas holds: nothing, a truth value,
    a number (plain or boxed), text, a timestamp, or a missing marker. *)
Definition spreadsheet_cell (v : value) : bool :=
  match v with
  | PyNone | PyBool _ | PyInt _ | PyFloat _ | PyStr _
  | NpInteger _ | NpFloating _ | PdTimestamp _ | PdNaT | PdNA => true
  | _ => false
  end.

(** A record and what [prepare_batch] made of it: the same keys in the
    same order, each value normalised. *)
Definition prepared_from (r r' : row) : Prop :=
  Forall2 (fun kv kv' =>
    fst kv' = fst kv /\ convert_to_json_safe (snd kv) = Ok (snd kv')) r r'.

(** ** Further notions: the orchestrator *)

(** The store after the bulk calls for the prepared batches [cl], one
    after the other, if each of them succeeds. *)
Fixpoint bulk_writes (supabase : Client) (table_name mode : string)
    (cl : list (list row)) (s : store supabase) : option (store supabase) :=
  match cl with
  | [] => Some s
  | c :: cl' =>
      match write supabase table_name mode (Records c) s with
      | (s', None) => bulk_writes supabase table_name mode cl' s'
      | (_, Some _) => None
      end
  end.

(** Row numbers that go up from one entry to the next. *)
Fixpoint ascending (l : list Z) : Prop :=
  match l with
  | [] => True
  | a :: l' => Forall (fun b => a < b) l' /\ ascending l'
  end.

(** ** Further notions: the cleaner *)

Definition column_length (c : column) : nat :=
  match c with
  | Float64 xs => length xs
  | NullableInt64 xs => length xs
  | Int64 xs => length xs
  | Object xs => length xs
  end.

(** A cell that stands for a missing or unbounded number: NaN, NaT, NA, or
    an infinite float. *)
Definition missing_marker (v : value) : bool :=
  match v with
  | PdNaT | PdNA => true
  | PyFloat x | NpFloating x => is_missing_float x
  | _ => false
  end.

(** No cell of the column is such a marker, and none is [pd.NA]. *)
Definition unified (c : column) : Prop :=
  match c with
  | Float64 xs => Forall (fun x => is_missing_float x = false) xs
  | NullableInt64 xs => Forall (fun o => o <> None) xs
  | Int64 _ => True
  | Object xs => Forall (fun v => missing_marker v = false) xs
  end.

(** What [clean_data] makes of one column; [hit] tells whether some
    [float64] cell of the frame is NaN or infinite. *)
Definition clean_column (hit : bool) (c : column) : column :=
  strip_column (recast_column (where_notna_column (replace_column hit c))).

(** A column on which [clean_data] has nothing left to do. *)
Definition settled (c : column) : Prop :=
  unified c /\ recast_column c = c /\
  forall xs s, c = Object xs -> In (PyStr s) xs -> strip s = s.

Definition first_char (s : string) : option ascii :=
  match s with EmptyString => None | String c _ => Some c end.

Fixpoint last_char (s : string) : option ascii :=
  match s with
  | EmptyString => None
  | String c EmptyString => Some c
  | String _ s' => last_char s'
  end.

(** The text neither starts nor ends with white space. *)
Definition trimmed (s : string) : Prop :=
  (forall c, first_char s = Some c -> is_space c = false) /\
  (forall c, last_char s = Some c -> is_space c = false).

(** ** main *)

(** The configuration of lines 21 and 23. *)
Definition TABLE_NAME : string := "coatings".
Definition BATCH_SIZE : Z := 500.

(** [input()]: the next line the user types; [responses] is what is still
    to come. *)
Definition input (responses : list string) : result (string * list string) :=
  match responses with
  | [] => Raise (mkExn OtherError "EOF when reading a line")
  | r :: rest => Ok (r, rest)
  end.

(** [l[0]] *)
Definition first_item {A} (l : list A) : result A :=
  match l with
  | [] => Raise (mkExn OtherError "list index out of range")
  | a :: _ => Ok a
  end.

(** The body of the [try] of lines 267-270. *)
Definition compatibility_probe (data : list row) : result unit :=
  first ← first_item data;
  prepared ← prepare_batch [first];
  test_row ← first_item prepared;
  json_dumps test_row.

Section Main.

(** The client line 241 made, [df.to_dict('records')] of pandas, and the
    mode line 40 configures. *)
Variable supabase : Client.
Variable to_dict_records : DataFrame -> list row.
Variable UPLOAD_MODE : string.

(** How [main] ends. *)
Inductive main_exit : Type :=
| NotCompatible (e : exn)
| ClearRefused
| Cancelled
| Uploaded (out : upload_outcome supabase).

(** What is left when [main] returns: how it ended, the store, and the
    responses not read. *)
Record main_result : Type := mkMain {
  main_exit_of : main_exit;
  main_store : store supabase;
  main_unread : list string
}.

(** Lines 294-301: the confirmation and the upload. *)
Definition confirm_and_upload (data : list row) (mode : string)
    (responses : list string) (s : store supabase) : result main_result :=
  answer ← input responses;
  if negb (String.eqb (str_lower (fst answer)) "yes") then
    Ok (mkMain Cancelled s (snd answer))
  else
    out ← upload_in_batches supabase TABLE_NAME data BATCH_SIZE mode s;
    Ok (mkMain (Uploaded out) (db (final out)) (snd answer)).

(** [main], lines 236-301, from the frame line 246 read ([df] in the heap
    [h]) on; the inspection and the lines [main] prints itself change
    nothing and are left out.  [responses] is what the user will type, [s]
    the store before. *)
Definition main (h : heap) (df : nat) (responses : list string)
    (s : store supabase) : result main_result :=
  cleaned ← clean_data h df;
  f ← deref (fst cleaned) (snd cleaned);
  let data := to_dict_records f in
  match compatibility_probe data with
  | Raise e => Ok (mkMain (NotCompatible e) s responses)
  | Ok _ =>
      if String.eqb UPLOAD_MODE "replace" then
        answer ← input responses;
        match clear_table supabase TABLE_NAME (fst answer) s with
        | (s', false, _) => Ok (mkMain ClearRefused s' (snd answer))
        | (s', true, _) => confirm_and_upload data "insert" (snd answer) s'
        end
      else if String.eqb UPLOAD_MODE "upsert" then
        confirm_and_upload data "upsert" responses s
      else
        confirm_and_upload data "insert" responses s
  end.

End Main.

Arguments NotCompatible {supabase} e.
Arguments ClearRefused {supabase}.
Arguments Cancelled {supabase}.
Arguments Uploaded {supabase} out.
Arguments main_exit_of {supabase} _.
Arguments main_store {supabase} _.
Arguments main_unread {supabase} _.

(** A frame of one text column and its records, for sample runs of
    [main]. *)
Definition sku_frame : DataFrame := {[ "sku" := Object [PyStr " A-1 "; PyStr "A-2"] ]}.

Definition sku_records (f : DataFrame) : list row :=
  match f !! "sku" with
  | Some (Object xs) => map (fun v => [("sku", v)]) xs
  | _ => []
  end.

(** A record with a cell that holds an array of two texts. *)
Definition rows_with_array : list row :=
  [ [("sku", PyStr "A-1"); ("thickness", PyInt 2)];
    [("sku", PyStr "A-2"); ("tags", NdArray [PyStr "matt"; PyStr "clear"])] ].


Definition one_row_table : table := [[("sku", PyStr "Z-9")]].

(** A frame with a number column that has a gap and a text column. *)
Definition mixed_frame : DataFrame :=
  <[ "name" := Object [PyStr " abc "; PdNA] ]>
    {[ "qty" := Float64 [float_of_Z 1; S754_nan] ]}.
(** ** Theorems: Value Normalizer *)

Lemma convert_scalar_cases (obj : value) :
  is_scalar obj = true ->
  convert_to_json_safe obj =
    Ok (if checknull obj then PyNone
        else match obj with
             | NpInteger n => PyInt n
             | NpFloating x => if is_inf x then PyNone else PyFloat x
             | PdTimestamp iso => PyStr iso
             | _ => obj
             end).
Proof.
  destruct obj; cbn; try discriminate; intros _; try reflexivity.
  - destruct (is_nan x); reflexivity.
  - destruct (is_nan x); cbn; [reflexivity|]. destruct (is_inf x); reflexivity.
Qed.

(** C1, as the code has it: on every scalar input (anything but an array
    or a list) [convert_to_json_safe] returns; a missing or NaN input and a
    NaN or infinite boxed numeric give [None]; the result is never a boxed
    numeric and never NaN; an input no branch classifies comes back
    unchanged, a plain infinite float included. *)
Theorem convert_to_json_safe_scalar (obj : value) :
  is_scalar obj = true ->
  exists v, convert_to_json_safe obj = Ok v /\
    (checknull obj = true -> v = PyNone) /\
    (forall x, obj = NpFloating x -> is_nan x || is_inf x = true -> v = PyNone) /\
    (forall n, v <> NpInteger n) /\ (forall x, v <> NpFloating x) /\
    (forall x, v = PyFloat x -> is_nan x = false) /\
    (is_classified obj = false -> v = obj) /\
    (has_marker v = true -> exists x, obj = PyFloat x /\ is_inf x = true /\ v = obj).
Proof.
  intros Hs. rewrite (convert_scalar_cases obj Hs). eexists; split; [reflexivity|].
  destruct obj; try discriminate Hs; cbn.
  all: repeat match goal with
       | |- context [is_nan ?x] => destruct x; cbn
       end.
  all: repeat split; intros; try congruence; try discriminate; eauto.
  all: try (match goal with H : _ = NpFloating _ |- _ => inversion H; subst; cbn in *; congruence end).
  all: match goal with H : PyFloat _ = PyFloat _ |- _ => inversion H; subst; reflexivity end.
Qed.

Lemma convert_to_json_safe_scalar_witness :
  exists v, convert_to_json_safe (NpFloating (S754_infinity false)) = Ok v /\ v = PyNone.
Proof.
  destruct (convert_to_json_safe_scalar (NpFloating (S754_infinity false)) eq_refl)
    as (v & Hv & _ & Hinf & _).
  exists v. split; [exact Hv|]. exact (Hinf _ eq_refl eq_refl).
Defined.

(** C1, as stated, fails: an array of two elements makes the normalizer
    raise (the truth value of [pd.isna(obj)] is taken before the
    [np.ndarray] branch is reached), and a plain infinite float is returned
    as it is. *)
Lemma convert_to_json_safe_raises_or_keeps_inf :
  convert_to_json_safe (NdArray [NpFloating (float_of_Z 1); NpFloating (float_of_Z 2)]) =
    Raise (mkExn ValueError
      "The truth value of an array with more than one element is ambiguous. Use a.any() or a.all()") /\
  convert_to_json_safe (PyFloat (S754_infinity false)) = Ok (PyFloat (S754_infinity false)) /\
  has_marker (PyFloat (S754_infinity false)) = true /\
  ~ (forall obj, exists v, convert_to_json_safe obj = Ok v /\ has_marker v = false).
Proof.
  repeat split.
  intros H. destruct (H (PyFloat (S754_infinity false))) as (v & Hv & Hm).
  inversion Hv; subst. discriminate Hm.
Qed.

(** ** Theorems: partition into batches *)

Section Slices.

Context {A : Type}.
Implicit Types (l : list A) (b k m : nat).

Lemma py_slice_take_drop l (lo hi : Z) :
  0 <= lo <= Z.of_nat (length l) -> lo <= hi ->
  py_slice l lo hi = take (Z.to_nat (hi - lo)) (drop (Z.to_nat lo) l).
Proof.
  intros Hlo Hhi. unfold py_slice, slice_bound.
  destruct (Z.ltb_spec lo 0) as [?|_]; [lia|].
  destruct (Z.ltb_spec hi 0) as [?|_]; [lia|].
  rewrite (Z.min_l lo) by lia.
  destruct (Z.le_ge_cases hi (Z.of_nat (length l))) as [H|H].
  - rewrite Z.min_l by lia. reflexivity.
  - rewrite Z.min_r by lia.
    rewrite !take_ge; [reflexivity| |]; rewrite length_drop; lia.
Qed.

(** The [k]-th batch is the [k]-th block of [b] records. *)
Lemma py_slice_block l b k :
  (k * b <= length l)%nat ->
  py_slice l (Z.of_nat k * Z.of_nat b) (Z.of_nat k * Z.of_nat b + Z.of_nat b) =
  take b (drop (k * b) l).
Proof.
  intros H. rewrite py_slice_take_drop by lia.
  f_equal; [lia|]. f_equal. lia.
Qed.

Lemma concat_blocks l b m :
  concat (map (fun k => take b (drop (k * b) l)) (seq 0 m)) = take (m * b) l.
Proof.
  induction m as [|m IH]; [reflexivity|].
  rewrite seq_S, map_app, concat_app, IH. cbn [map concat Nat.add].
  rewrite app_nil_r, take_take_drop. f_equal. lia.
Qed.

End Slices.

(** How many batches: [ceil (n / b)]. *)
Lemma batch_count_bounds (n bs : Z) :
  0 <= n -> 0 < bs ->
  let m := (n + bs - 1) / bs in
  0 <= m /\ n <= m * bs /\ (0 < n -> (m - 1) * bs < n).
Proof.
  intros Hn Hbs m. subst m.
  pose proof (Z.mul_div_le (n + bs - 1) bs Hbs).
  pose proof (Z.mul_succ_div_gt (n + bs - 1) bs Hbs).
  assert (0 <= (n + bs - 1) / bs) by (apply Z.div_pos; lia).
  repeat split; nia.
Qed.

Lemma py_range_batches (n bs : Z) :
  0 <= n -> 0 < bs ->
  py_range 0 n bs =
    Ok (map (fun k => Z.of_nat k * bs) (seq 0 (Z.to_nat ((n + bs - 1) / bs)))).
Proof.
  intros Hn Hbs. unfold py_range.
  destruct (Z.eqb_spec bs 0) as [?|_]; [lia|].
  destruct (Z.ltb_spec 0 bs) as [_|?]; [|lia].
  rewrite Z.sub_0_r. reflexivity.
Qed.

Lemma batches_blocks {A} (l : list A) (bs : Z) :
  0 < bs ->
  let b := Z.to_nat bs in
  let m := Z.to_nat ((Z.of_nat (length l) + bs - 1) / bs) in
  map (fun i => py_slice l i (i + bs)) (map (fun k => Z.of_nat k * bs) (seq 0 m)) =
  map (fun k => take b (drop (k * b) l)) (seq 0 m).
Proof.
  intros Hbs b m. rewrite map_map. apply map_ext_in. intros k Hk.
  apply in_seq in Hk.
  destruct (batch_count_bounds (Z.of_nat (length l)) bs) as (Hm0 & Hm1 & Hm2); [lia..|].
  fold m in Hk. replace bs with (Z.of_nat b) at 1 2 3 by lia.
  apply py_slice_block.
  destruct (length l) as [|n'] eqn:E.
  - exfalso. cbn in m. subst m. rewrite Z.add_0_l in Hk.
    rewrite Z.div_small in Hk by lia. cbn in Hk. lia.
  - specialize (Hm2 ltac:(lia)). subst m b. nia.
Qed.

(** The starts of the batches and what the slices at them add up to. *)
Lemma batch_starts {A} (l : list A) (bs : Z) :
  0 < bs ->
  exists starts,
    py_range 0 (Z.of_nat (length l)) bs = Ok starts /\
    concat (map (fun i => py_slice l i (i + bs)) starts) = l /\
    Forall (fun i => exists k : nat, i = Z.of_nat k * bs /\ i < Z.of_nat (length l)) starts.
Proof.
  intros Hbs. eexists. split; [apply py_range_batches; lia|].
  destruct (batch_count_bounds (Z.of_nat (length l)) bs) as (Hm0 & Hm1 & Hm2); [lia..|].
  split.
  - rewrite batches_blocks by exact Hbs. rewrite concat_blocks. apply take_ge. nia.
  - apply List.Forall_forall. intros i Hi. apply in_map_iff in Hi as (k & <- & Hk).
    apply in_seq in Hk. exists k. split; [reflexivity|].
    destruct (length l) as [|n'] eqn:E.
    + exfalso. rewrite Z.add_0_l, Z.div_small in Hk by lia. cbn in Hk. lia.
    + specialize (Hm2 ltac:(lia)). nia.
Qed.

Lemma py_slice_lookup {A} (l : list A) (i bs : Z) (j : nat) (a : A) :
  0 <= i <= Z.of_nat (length l) -> 0 < bs ->
  py_slice l i (i + bs) !! j = Some a ->
  l !! Z.to_nat (i + Z.of_nat j) = Some a /\ Z.of_nat j < bs.
Proof.
  intros Hi Hbs H. rewrite py_slice_take_drop in H by lia.
  apply lookup_take_Some in H as [H Hj]. rewrite lookup_drop in H.
  split; [|lia]. rewrite <- H. f_equal. lia.
Qed.



(** ** Theorems: Table Clear *)

(** C7: whatever the store, a confirmation other than the exact phrase
    [DELETE ALL] makes [clear_table] return [False] with the store as it
    was and no delete issued; so a delete happens only on the exact
    phrase. *)
Theorem clear_table_requires_phrase
    (supabase : Client) (table_name response : string) (s : store supabase) :
  response <> "DELETE ALL" ->
  clear_table supabase table_name response s =
    (s, false, [LogClearWarning table_name; LogClearCancelled]).
Proof.
  intros Hne. unfold clear_table.
  destruct (String.eqb_spec response "DELETE ALL") as [->|_]; [contradiction|].
  reflexivity.
Qed.

Lemma clear_table_requires_phrase_witness :
  clear_table table_client "coatings" "delete all" [[("sku", PyStr "A-1")]] =
    ([[("sku", PyStr "A-1")]], false, [LogClearWarning "coatings"; LogClearCancelled]).
Proof.
  apply (clear_table_requires_phrase table_client "coatings" "delete all"
           [[("sku", PyStr "A-1")]]).
  discriminate.
Defined.

(** On the exact phrase the delete is issued, and the value returned tells
    whether the store accepted it. *)
Lemma clear_table_confirmed (supabase : Client) (table_name : string) (s : store supabase) :
  fst (clear_table supabase table_name "DELETE ALL" s) =
    (fst (delete_neq supabase table_name "sku" (PyStr "") s),
     match snd (delete_neq supabase table_name "sku" (PyStr "") s) with
     | None => true
     | Some _ => false
     end).
Proof.
  unfold clear_table. cbn.
  destruct (delete_neq supabase table_name "sku" (PyStr "") s) as [s' [e|]]; reflexivity.
Qed.

Example clear_table_deletes :
  clear_table table_client "coatings" "DELETE ALL" [[("sku", PyStr "A-1")]] =
    ([], true, [LogClearWarning "coatings"; LogDeleting "coatings"; LogCleared]).
Proof. reflexivity. Qed.

(** ** Theorems: loops *)

Section Loops.

Context {A B S : Type}.

(** An invariant indexed by the part of the list already consumed. *)
Lemma foldM_invariant (f : S -> A -> result S) (I : list A -> S -> Prop)
    (l : list A) (s0 s : S) :
  I [] s0 ->
  (forall pre a s1 s2, In a l -> I pre s1 -> f s1 a = Ok s2 -> I (pre ++ [a]) s2) ->
  foldM f l s0 = Ok s -> I l s.
Proof.
  intros H0 Hstep.
  assert (G : forall post pre s1, (forall a, In a post -> In a l) -> I pre s1 ->
              foldM f post s1 = Ok s -> I (pre ++ post) s).
  { induction post as [|a post IH]; intros pre s1 Hin Hpre Hrun; cbn in Hrun.
    - inversion Hrun; subst. rewrite app_nil_r. exact Hpre.
    - destruct (f s1 a) as [s2|e] eqn:Ha; cbn in Hrun; [|discriminate].
      replace (pre ++ a :: post) with ((pre ++ [a]) ++ post)
        by (rewrite <- app_assoc; reflexivity).
      apply (IH _ s2); [intros; apply Hin; right; assumption| |exact Hrun].
      eapply Hstep; eauto. apply Hin. left. reflexivity. }
  intros Hrun. apply (G l [] s0); auto.
Qed.

(** The loop returns when every iteration does. *)
Lemma foldM_returns (f : S -> A -> result S) (I : S -> Prop) (l : list A) (s0 : S) :
  I s0 ->
  (forall a s1, In a l -> I s1 -> exists s2, f s1 a = Ok s2 /\ I s2) ->
  exists s, foldM f l s0 = Ok s /\ I s.
Proof.
  revert s0. induction l as [|a l IH]; intros s0 H0 Hstep; cbn.
  - eauto.
  - destruct (Hstep a s0) as (s2 & Ha & H2); [left; reflexivity|exact H0|].
    rewrite Ha. cbn. apply IH; [exact H2|].
    intros; apply Hstep; [right|]; assumption.
Qed.

Lemma mapM_lookup (f : A -> result B) (l : list A) (l' : list B) :
  mapM f l = Ok l' ->
  length l' = length l /\
  forall (j : nat) b, l' !! j = Some b -> exists a, l !! j = Some a /\ f a = Ok b.
Proof.
  revert l'. induction l as [|a l IH]; intros l' H; cbn in H.
  - inversion H; subst. split; [reflexivity|]. intros j b Hj. discriminate.
  - destruct (f a) as [b0|e] eqn:Ha; cbn in H; [|discriminate].
    destruct (mapM f l) as [bs|e] eqn:Hl; cbn in H; [|discriminate].
    inversion H; subst. destruct (IH bs eq_refl) as [Hlen Hlk].
    split; [cbn; congruence|].
    intros [|j] b Hj; cbn in Hj.
    + inversion Hj; subst. exists a. split; [reflexivity|exact Ha].
    + apply Hlk in Hj. exact Hj.
Qed.

Lemma mapM_returns (f : A -> result B) (l : list A) :
  (forall a, In a l -> returns (f a)) <-> returns (mapM f l).
Proof.
  induction l as [|a l IH]; cbn.
  - split; [intros _; eexists; reflexivity|intros _ a []].
  - split.
    + intros H. destruct (H a) as [b Hb]; [left; reflexivity|].
      destruct (proj1 IH) as [bs Hbs]; [intros; apply H; right; assumption|].
      rewrite Hb, Hbs. eexists; reflexivity.
    + intros [bs H] x [<-|Hx].
      * destruct (f a); [eexists; reflexivity|discriminate].
      * destruct (f a); cbn in H; [|discriminate].
        apply (proj2 IH); [|exact Hx].
        destruct (mapM f l); [eexists; reflexivity|discriminate].
Qed.

End Loops.

Lemma enumerate_from_lookup {A} (l : list A) (k : Z) (idx : Z) (a : A) :
  In (idx, a) (enumerate_from k l) ->
  exists j : nat, l !! j = Some a /\ idx = k + Z.of_nat j.
Proof.
  revert k. induction l as [|x l IH]; intros k H; cbn in H; [contradiction|].
  destruct H as [H|H].
  - inversion H; subst. exists 0%nat. split; [reflexivity|lia].
  - apply IH in H as (j & Hj & ->). exists (Datatypes.S j). split; [exact Hj|lia].
Qed.

Lemma str_prefix_length (n : nat) (s : string) :
  (String.length (str_prefix n s) <= n)%nat.
Proof.
  unfold str_prefix. revert s. induction n as [|n IH]; intros s; destruct s; cbn; try lia.
  specialize (IH s). lia.
Qed.

(** ** Theorems: Upload Orchestrator *)

Section UploadFacts.

Variable supabase : Client.
Variable table_name : string.
Variable data : list row.
Variable batch_size : Z.
Variable mode : string.

Local Abbreviation state := (upload_state supabase).
Local Abbreviation attempt := (try_row supabase table_name mode).
Local Abbreviation rstep := (row_step supabase table_name mode).
Local Abbreviation bstep := (batch_step supabase table_name data batch_size mode).
Local Abbreviation upload := (upload_in_batches supabase table_name data batch_size mode).

Lemma error_text_length (e : exn) : (String.length (error_text e) <= 200)%nat.
Proof.
  unfold error_text. destruct (is_JSONDecodeError e); [cbn; lia|apply str_prefix_length].
Qed.

Lemma row_step_ok (i : Z) (st : state) (ir : Z * row) s' :
  attempt (snd ir) (db st) = (s', None) ->
  rstep i st ir =
    mkState supabase s' (successful st + 1) (failed st) (failed_rows st) (stdout st).
Proof. intros H. unfold row_step. rewrite H. reflexivity. Qed.

Lemma row_step_fail (i : Z) (st : state) (ir : Z * row) s' e :
  attempt (snd ir) (db st) = (s', Some e) ->
  exists line,
    row_failure_line (i + fst ir) line = true /\
    rstep i st ir =
      mkState supabase s' (successful st) (failed st + 1)
        (failed_rows st ++ [mkFailure (i + fst ir) (error_text e) (snd ir)])
        (stdout st ++ [line]).
Proof.
  intros H. unfold row_step, error_text. rewrite H.
  destruct (is_JSONDecodeError e).
  - eexists. split; [|reflexivity]. cbn. apply Z.eqb_refl.
  - destruct (str_in "23505" (exn_msg e) || str_in "duplicate key" (str_lower (exn_msg e))).
    + eexists. split; [|reflexivity]. cbn. apply Z.eqb_refl.
    + eexists. split; [|reflexivity]. cbn. apply Z.eqb_refl.
Qed.

(** What the per-record loop adds to the state. *)
Lemma fallback_spec (i : Z) (rows : list row) (k : Z) (st : state) :
  let st' := fold_left (rstep i) (enumerate_from k rows) st in
  exists news more,
    failed_rows st' = failed_rows st ++ news /\
    stdout st' = stdout st ++ more /\
    failed st' = failed st + Z.of_nat (length news) /\
    successful st' + failed st' = successful st + failed st + Z.of_nat (length rows) /\
    Forall (fun f =>
      (String.length (fr_error f) <= 200)%nat /\
      (exists (j : nat), rows !! j = Some (fr_data f) /\ fr_row f = i + k + Z.of_nat j) /\
      (exists line, In line more /\ row_failure_line (fr_row f) line = true)) news.
Proof.
  cbv zeta. revert k st. induction rows as [|r rows IH]; intros k st;
    cbn [enumerate_from fold_left].
  - exists [], []. rewrite !app_nil_r. cbn. repeat split; try lia. constructor.
  - destruct (attempt r (db st)) as [s' [e|]] eqn:Htry.
    + destruct (row_step_fail i st (k, r) s' e Htry) as (line & Hline & Hstep).
      cbn [fst snd] in Hstep, Hline. rewrite Hstep.
      match goal with |- context [fold_left _ _ ?st1] =>
        destruct (IH (k + 1) st1) as (news & more & Hf & Ho & Hc & Hs & Hall) end.
      cbn in Hf, Ho, Hc, Hs.
      exists (mkFailure (i + k) (error_text e) r :: news), (line :: more).
      rewrite Hf, Ho, <- !app_assoc. cbn [app length].
      repeat split; try lia.
      constructor.
      * cbn. split; [apply error_text_length|]. split.
        -- exists 0%nat. split; [reflexivity|lia].
        -- exists line. split; [left; reflexivity|exact Hline].
      * eapply Forall_impl; [exact Hall|]. cbn.
        intros f (Hlen & (j & Hj & Hrow) & (l0 & Hin & Hl0)).
        split; [exact Hlen|]. split.
        -- exists (Datatypes.S j). split; [exact Hj|lia].
        -- exists l0. split; [right; exact Hin|exact Hl0].
    + rewrite (row_step_ok i st (k, r) s' Htry).
      match goal with |- context [fold_left _ _ ?st1] =>
        destruct (IH (k + 1) st1) as (news & more & Hf & Ho & Hc & Hs & Hall) end.
      cbn in Hf, Ho, Hc, Hs.
      exists news, more. cbn [length]. repeat split; try assumption; try lia.
      eapply Forall_impl; [exact Hall|]. cbn.
      intros f (Hlen & (j & Hj & Hrow) & Hline).
      split; [exact Hlen|]. split; [|exact Hline].
      exists (Datatypes.S j). split; [exact Hj|lia].
Qed.

Lemma failed_twice_mono (out out' : list log_line) (f : FailureRecord) :
  (forall line, In line out -> In line out') ->
  failed_twice batch_size out f -> failed_twice batch_size out' f.
Proof.
  intros Hsub [(l1 & H1 & E1) (l2 & H2 & E2)].
  split; [exists l1|exists l2]; auto.
Qed.

(** What one iteration of the batch loop adds to the state. *)
Lemma batch_step_spec (st st' : state) (i : Z) :
  0 < batch_size ->
  (exists k : nat, i = Z.of_nat k * batch_size /\ i < Z.of_nat (length data)) ->
  bstep st i = Ok st' ->
  exists news more,
    failed_rows st' = failed_rows st ++ news /\
    stdout st' = stdout st ++ more /\
    failed st' = failed st + Z.of_nat (length news) /\
    successful st' + failed st' =
      successful st + failed st +
      Z.of_nat (length (py_slice data i (i + batch_size))) /\
    Forall (fun f =>
      (String.length (fr_error f) <= 200)%nat /\
      failure_of_row data f /\
      failed_twice batch_size more f) news.
Proof.
  intros Hbs (k & Hk & Hlt) H. unfold batch_step in H.
  destruct (prepare_batch (py_slice data i (i + batch_size))) as [cleaned|e0] eqn:Hprep;
    cbn [mbind result_bind] in H; [|discriminate].
  destruct (mapM_lookup _ _ _ Hprep) as [Hlen Hlk].
  destruct (write supabase table_name mode (Records cleaned) (db st)) as [s' [e|]] eqn:Hw.
  - destruct (dict_getitem mode_text mode) as [verb|e1];
      cbn [mbind result_bind] in H; [|discriminate].
    inversion H as [Hst]; clear H.
    match goal with |- context [fold_left _ _ ?st1] =>
      destruct (fallback_spec i cleaned 0 st1) as (news & more & Hf & Ho & Hc & Hs & Hall) end.
    cbn in Hf, Ho, Hc, Hs. unfold enumerate.
    eexists news, (_ :: _ :: more).
    rewrite Hf, Ho, <- !app_assoc. cbn [app].
    repeat split; try lia.
    eapply Forall_impl; [exact Hall|]. cbn.
    intros f (Hlen200 & (j & Hj & Hrow) & (line & Hin & Hline)).
    destruct (Hlk j _ Hj) as (r & Hr & Hpr).
    destruct (py_slice_lookup data i batch_size j r ltac:(lia) Hbs Hr) as [Hd Hjb].
    split; [exact Hlen200|]. split; [|split].
    + split; [lia|]. exists r. rewrite Hrow, Z.add_0_r. split; assumption.
    + eexists. split; [left; reflexivity|]. cbn. apply Z.eqb_eq. f_equal.
      rewrite Hrow, Hk, Z.add_0_r, Z.div_add_l, Z.div_mul, (Z.div_small (Z.of_nat j)) by lia.
      lia.
    + exists line. split; [right; right; exact Hin|exact Hline].
  - inversion H as [Hst]; clear H. cbn.
    eexists [], [_]. rewrite app_nil_r. cbn. repeat split; try lia. constructor.
Qed.

Local Abbreviation run_inv := (run_invariant supabase data batch_size).

Lemma run_invariant_step (pre : list Z) (i : Z) (st st' : state) :
  0 < batch_size ->
  (exists k : nat, i = Z.of_nat k * batch_size /\ i < Z.of_nat (length data)) ->
  run_inv pre st -> bstep st i = Ok st' -> run_inv (pre ++ [i]) st'.
Proof.
  intros Hbs Hi (Hsum & Hcnt & Hall) Hstep.
  destruct (batch_step_spec st st' i Hbs Hi Hstep) as (news & more & Hf & Ho & Hc & Hs & Hnew).
  unfold run_invariant.
  rewrite map_app, concat_app, length_app. cbn [map concat]. rewrite app_nil_r.
  rewrite Hf, Ho, length_app. split; [lia|]. split; [lia|].
  apply Forall_app. split.
  - eapply Forall_impl; [exact Hall|]. cbn. intros f (H1 & H2 & H3).
    split; [exact H1|]. split; [exact H2|].
    eapply failed_twice_mono; [|exact H3]. intros; apply in_or_app; auto.
  - eapply Forall_impl; [exact Hnew|]. cbn. intros f (H1 & H2 & H3).
    split; [exact H1|]. split; [exact H2|].
    eapply failed_twice_mono; [|exact H3]. intros; apply in_or_app; auto.
Qed.

(** The state a run that returns ends in, and the file it writes. *)
Lemma upload_run_spec (s : store supabase) (out : upload_outcome supabase) :
  0 < batch_size ->
  upload s = Ok out ->
  successful (final out) + failed (final out) = Z.of_nat (length data) /\
  failed (final out) = Z.of_nat (length (failed_rows (final out))) /\
  Forall (fun f =>
    (String.length (fr_error f) <= 200)%nat /\
    failure_of_row data f /\
    failed_twice batch_size (stdout (final out)) f) (failed_rows (final out)) /\
  failed_rows_json out =
    match failed_rows (final out) with [] => None | _ :: _ => Some (failed_rows (final out)) end.
Proof.
  intros Hbs H. unfold upload_in_batches, total_rows in H.
  destruct (batch_starts data batch_size Hbs) as (starts & Hr & Hcat & Hst).
  rewrite Hr in H. cbn [mbind result_bind] in H.
  match type of H with context [foldM _ _ ?st0] =>
    destruct (foldM bstep starts st0) as [st|e] eqn:Hrun end;
    cbn [mbind result_bind] in H; [|discriminate].
  assert (Hinv : run_inv starts st).
  { eapply (foldM_invariant bstep run_inv); [| |exact Hrun].
    - repeat split; cbn; constructor.
    - intros pre a s1 s2 Ha Hpre Hstep.
      eapply run_invariant_step; eauto.
      rewrite List.Forall_forall in Hst. apply Hst. exact Ha. }
  destruct Hinv as (Hsum & Hcnt & Hall). rewrite Hcat in Hsum.
  assert (Hall' : forall extra, Forall (fun f =>
    (String.length (fr_error f) <= 200)%nat /\
    failure_of_row data f /\
    failed_twice batch_size (stdout st ++ extra) f) (failed_rows st)).
  { intros extra. eapply Forall_impl; [exact Hall|]. cbn. intros f (H1 & H2 & H3).
    split; [exact H1|]. split; [exact H2|].
    eapply failed_twice_mono; [|exact H3]. intros; apply in_or_app; auto. }
  destruct (failed_rows st) as [|f0 fs] eqn:Hfr; inversion H; subst out; cbn.
  - rewrite Hfr. repeat split; try assumption. constructor.
  - rewrite Hfr. repeat split; try assumption.
    rewrite <- !app_assoc. apply Hall'.
Qed.

Lemma py_slice_In (l : list row) (lo hi : Z) (r : row) :
  In r (py_slice l lo hi) -> In r l.
Proof.
  unfold py_slice. intros H.
  apply list_elem_of_In in H. apply list_elem_of_In.
  eapply subseteq_drop, subseteq_take, H.
Qed.

(** A run returns whenever the normalizer accepts every record and
    [mode] is one [mode_text] knows, whatever the store answers. *)
Lemma upload_returns (s : store supabase) :
  0 < batch_size ->
  returns (prepare_batch data) ->
  returns (dict_getitem mode_text mode) ->
  returns (upload s).
Proof.
  intros Hbs Hprep [verb Hmode]. unfold upload_in_batches, total_rows.
  destruct (batch_starts data batch_size Hbs) as (starts & Hr & _ & _).
  rewrite Hr. cbn [mbind result_bind].
  match goal with |- context [foldM _ _ ?st0] =>
    destruct (foldM_returns bstep (fun _ => True) starts st0 I) as (st & Hrun & _) end.
  - intros i st1 _ _. unfold batch_step.
    assert (Hp : returns (prepare_batch (py_slice data i (i + batch_size)))).
    { apply mapM_returns. intros r Hin. apply py_slice_In in Hin.
      apply (proj2 (mapM_returns prepare_row data) Hprep r Hin). }
    destruct Hp as [cleaned ->]. cbn [mbind result_bind].
    destruct (write supabase table_name mode (Records cleaned) (db st1)) as [s' [e|]].
    + rewrite Hmode. cbn [mbind result_bind]. eexists. split; [reflexivity|exact I].
    + eexists. split; [reflexivity|exact I].
  - rewrite Hrun. cbn [mbind result_bind].
    destruct (failed_rows st); eexists; reflexivity.
Qed.

End UploadFacts.

(** C10: with a positive batch size, a run that reaches its end has
    counted every record once, as a success or as a failure with its
    entry, whatever the store answered; and a run does reach its end when
    the normalizer accepts every record and the mode is a known one. *)
Theorem upload_counts_every_record
    (supabase : Client) (table_name : string) (data : list row)
    (batch_size : Z) (mode : string) (s : store supabase) :
  0 < batch_size ->
  (forall out,
     upload_in_batches supabase table_name data batch_size mode s = Ok out ->
     successful (final out) + failed (final out) = Z.of_nat (length data) /\
     Z.of_nat (length (failed_rows (final out))) = failed (final out)) /\
  (returns (prepare_batch data) -> returns (dict_getitem mode_text mode) ->
   returns (upload_in_batches supabase table_name data batch_size mode s)).
Proof.
  intros Hbs. split.
  - intros out Hout.
    destruct (upload_run_spec _ _ _ _ _ s out Hbs Hout) as (Hsum & Hcnt & _).
    split; [exact Hsum|symmetry; exact Hcnt].
  - apply upload_returns. exact Hbs.
Qed.

Lemma upload_counts_every_record_witness :
  exists out,
    upload_in_batches table_client "coatings" sample_rows 2 "insert" [] = Ok out /\
    successful (final out) = 1 /\ failed (final out) = 2 /\
    successful (final out) + failed (final out) = 3.
Proof.
  destruct (upload_counts_every_record table_client "coatings" sample_rows 2 "insert" []
              ltac:(lia)) as [Hcount Hret].
  destruct Hret as [out Hout].
  - eexists. vm_compute. reflexivity.
  - eexists. vm_compute. reflexivity.
  - exists out. split; [exact Hout|].
    destruct (Hcount out Hout) as [Hsum _].
    vm_compute in Hout. inversion Hout; subst out. cbn.
    split; [reflexivity|]. split; [reflexivity|]. exact Hsum.
Defined.



(** *** One batch whose bulk call fails *)

Lemma py_range_single (n bs : Z) :
  0 < n <= bs -> py_range 0 n bs = Ok [0].
Proof.
  intros H. rewrite py_range_batches by lia.
  replace ((n + bs - 1) / bs) with 1; [reflexivity|].
  apply Z.div_unique with (r := n - 1); lia.
Qed.

Lemma py_slice_whole {A} (l : list A) (bs : Z) :
  Z.of_nat (length l) <= bs -> py_slice l 0 (0 + bs) = l.
Proof.
  intros H. rewrite py_slice_take_drop by lia. cbn [Z.to_nat drop].
  apply take_ge. lia.
Qed.

(** When every individual attempt succeeds the per-record loop only moves
    the success count and the store. *)
Lemma fallback_all_succeed
    (supabase : Client) (table_name mode : string) (i : Z)
    (rows : list row) (k : Z) (st : upload_state supabase) :
  singles_succeed supabase table_name mode rows (db st) = true ->
  exists s',
    fold_left (row_step supabase table_name mode i) (enumerate_from k rows) st =
    mkState supabase s' (successful st + Z.of_nat (length rows)) (failed st)
      (failed_rows st) (stdout st).
Proof.
  revert k st. induction rows as [|r rows IH]; intros k st H;
    cbn [enumerate_from fold_left singles_succeed length] in *.
  - exists (db st). destruct st; cbn. f_equal. lia.
  - destruct (try_row supabase table_name mode r (db st)) as [s1 [e|]] eqn:Htry;
      [discriminate|].
    rewrite (row_step_ok supabase table_name mode i st (k, r) s1 Htry).
    match goal with |- context [fold_left _ _ ?st1] =>
      destruct (IH (k + 1) st1 H) as [s' Hs'] end.
    exists s'. rewrite Hs'. cbn. f_equal. lia.
Qed.

(** C6: a run of one batch in upsert mode whose bulk call fails and whose
    individual attempts all succeed ends with every record counted as a
    success, no failure, no entry, and no [failed_rows.json] written. *)
Theorem bulk_failure_singles_succeed
    (supabase : Client) (table_name : string) (data cleaned : list row)
    (batch_size : Z) (s s1 : store supabase) (e : exn) :
  data <> [] -> Z.of_nat (length data) <= batch_size ->
  prepare_batch data = Ok cleaned ->
  upsert supabase table_name (Records cleaned) s = (s1, Some e) ->
  singles_succeed supabase table_name "upsert" cleaned s1 = true ->
  exists out,
    upload_in_batches supabase table_name data batch_size "upsert" s = Ok out /\
    successful (final out) = Z.of_nat (length data) /\
    failed (final out) = 0 /\
    failed_rows (final out) = [] /\
    failed_rows_json out = None.
Proof.
  intros Hne Hlen Hprep Hbulk Hsingles.
  assert (Hn : 0 < Z.of_nat (length data)) by (destruct data; [contradiction|cbn; lia]).
  unfold upload_in_batches, total_rows.
  rewrite py_range_single by lia. cbn [mbind result_bind foldM].
  unfold batch_step at 1. rewrite py_slice_whole by lia. rewrite Hprep.
  cbn [mbind result_bind db]. unfold write at 1. cbn [String.eqb Ascii.eqb Bool.eqb].
  rewrite Hbulk. cbn [dict_getitem mode_text String.eqb Ascii.eqb Bool.eqb mbind result_bind].
  unfold enumerate.
  match goal with |- context [fold_left _ _ ?st1] =>
    destruct (fallback_all_succeed supabase table_name "upsert" 0 cleaned 0 st1 Hsingles)
      as [s' Hs'] end.
  rewrite Hs'. cbn.
  destruct (mapM_lookup _ _ _ Hprep) as [Hl _].
  eexists. split; [reflexivity|]. cbn. repeat split. lia.
Qed.

Lemma bulk_failure_singles_succeed_witness :
  exists out,
    upload_in_batches singles_only_client "coatings" sample_rows 500 "upsert" 0%nat = Ok out /\
    successful (final out) = 3 /\
    failed (final out) = 0 /\
    failed_rows (final out) = [] /\
    failed_rows_json out = None.
Proof.
  apply (bulk_failure_singles_succeed singles_only_client "coatings" sample_rows
           [ [("sku", PyStr "A-1"); ("thickness", PyFloat (float_of_Z 2))];
             [("sku", PyStr "A-1"); ("thickness", PyNone)];
             [("sku", PyNone); ("thickness", PyInt 3)] ]
           500 0%nat 0%nat (mkExn APIError "payload too large")).
  - discriminate.
  - cbn. lia.
  - reflexivity.
  - reflexivity.
  - reflexivity.
Defined.

(** *** A record [json.dumps] rejects *)

(** [json.dumps] raises [TypeError], never [json.JSONDecodeError]: the
    clause of line 164 does not catch it, the one of line 170 does, and
    the entry carries the text of the exception. *)
Lemma json_dumps_raises (r : row) (e : exn) :
  json_dumps r = Raise e ->
  exn_cls e = TypeError /\ is_JSONDecodeError e = false /\
  error_text e <> "JSON error".
Proof.
  induction r as [|[key v] r IH]; cbn; [discriminate|].
  destruct (unserializable v) as [o|]; [|exact IH].
  intros H. inversion H; subst e. repeat split. discriminate.
Qed.

Lemma row_step_unserializable
    (supabase : Client) (table_name mode : string) (i idx : Z) (r : row) (e : exn)
    (st : upload_state supabase) :
  json_dumps r = Raise e ->
  exists line,
    row_step supabase table_name mode i st (idx, r) =
      mkState supabase (db st) (successful st) (failed st + 1)
        (failed_rows st ++ [mkFailure (i + idx) (str_prefix 200 (exn_msg e)) r])
        (stdout st ++ [line]) /\
    str_prefix 200 (exn_msg e) <> "JSON error".
Proof.
  intros Hj. destruct (json_dumps_raises r e Hj) as (_ & Hcls & Hne).
  assert (Htry : try_row supabase table_name mode (snd (idx, r)) (db st) = (db st, Some e)).
  { unfold try_row. cbn. rewrite Hj. reflexivity. }
  destruct (row_step_fail supabase table_name mode i st (idx, r) (db st) e Htry)
    as (line & _ & Hstep).
  unfold error_text in Hstep, Hne. rewrite Hcls in Hstep, Hne.
  exists line. split; [exact Hstep|exact Hne].
Qed.

(** C2, on the code: a batch of two records, the first with a cell
    [json.dumps] cannot encode, sent to a store whose bulk call fails.  The
    first record gets exactly one entry and the failure count goes up by
    one, the second record is still written; but the entry's error is the
    text of the [TypeError], not ["JSON error"]. *)
Theorem unserializable_record_entry :
  exists out,
    upload_in_batches singles_only_client "coatings" rows_with_time 500 "upsert" 0%nat
      = Ok out /\
    failed_rows (final out) =
      [mkFailure 0 "Object of type time is not JSON serializable"
         [("sku", PyStr "A-1"); ("opened", PyObject "time")]] /\
    failed (final out) = 1 /\
    successful (final out) = 1 /\
    db (final out) = 1%nat /\
    Forall (fun f => fr_error f <> "JSON error") (failed_rows (final out)).
Proof.
  eexists. split; [vm_compute; reflexivity|]. cbn.
  repeat split. constructor; [discriminate|constructor].
Qed.

(** ** Theorems: the keyed table *)

Lemma has_key_In (k : string) (t : table) :
  has_key k t = true <-> In (Some k) (keys t).
Proof.
  unfold has_key, keys. induction t as [|r t IH]; cbn [existsb map In].
  - split; [discriminate|contradiction].
  - rewrite orb_true_iff, IH. destruct (row_key r) as [k'|].
    + destruct (String.eqb_spec k' k) as [->|Hne]; split; intros [H|H]; auto;
        try discriminate. inversion H. contradiction.
    + split; intros [H|H]; auto; discriminate.
Qed.

Lemma has_key_keys (k : string) (t t' : table) :
  keys t = keys t' -> has_key k t = has_key k t'.
Proof.
  intros H. destruct (has_key k t) eqn:E1, (has_key k t') eqn:E2; try reflexivity.
  - apply has_key_In in E1. rewrite H in E1. apply has_key_In in E1. congruence.
  - apply has_key_In in E2. rewrite <- H in E2. apply has_key_In in E2. congruence.
Qed.

Lemma keys_update_row (k : string) (r : row) (t : table) :
  row_key r = Some k -> keys (update_row k r t) = keys t.
Proof.
  intros Hr. unfold keys. induction t as [|r0 t IH]; cbn [update_row map]; [reflexivity|].
  destruct (row_key r0) as [k0|] eqn:E0.
  - destruct (String.eqb_spec k0 k) as [->|Hne]; cbn [map].
    + rewrite Hr. reflexivity.
    + rewrite E0, IH. reflexivity.
  - cbn [map]. rewrite E0, IH. reflexivity.
Qed.

(** A single upsert: it fails exactly on a record without identifier, and
    otherwise leaves the identifier column as it was or adds the new
    identifier at its end. *)
Lemma upsert_row_keys (t t' : table) (r : row) :
  upsert_row t r = Ok t' ->
  exists k, row_key r = Some k /\
    ((has_key k t = true /\ keys t' = keys t) \/
     (has_key k t = false /\ keys t' = keys t ++ [Some k])).
Proof.
  unfold upsert_row. destruct (row_key r) as [k|] eqn:Hk; [|discriminate].
  destruct (has_key k t) eqn:Hh; intros H; inversion H; subst t'; exists k;
    (split; [reflexivity|]).
  - left. split; [exact Hh|]. apply keys_update_row. exact Hk.
  - right. split; [exact Hh|]. unfold keys. rewrite map_app. cbn [map]. rewrite Hk. reflexivity.
Qed.

Lemma upsert_row_raises (t : table) (r : row) (e : exn) :
  upsert_row t r = Raise e -> row_key r = None.
Proof.
  unfold upsert_row. destruct (row_key r); [|reflexivity].
  destruct (has_key s t); discriminate.
Qed.

Lemma upsert_rows_keys (rows : list row) (t t' : table) :
  foldM upsert_row rows t = Ok t' ->
  (forall k, has_key k t = true -> has_key k t' = true) /\
  Forall (keyed_in t') rows /\
  (NoDup (keys t) -> NoDup (keys t')).
Proof.
  revert t. induction rows as [|r rows IH]; intros t H; cbn in H.
  - inversion H; subst. repeat split; auto.
  - destruct (upsert_row t r) as [t1|e] eqn:Hr; cbn in H; [|discriminate].
    destruct (IH t1 H) as (Hmono & Hall & Hnd).
    destruct (upsert_row_keys t t1 r Hr) as (k & Hk & Hcase).
    assert (Hk1 : has_key k t1 = true).
    { destruct Hcase as [[Hh Hkeys]|[Hh Hkeys]].
      - rewrite (has_key_keys k t1 t Hkeys). exact Hh.
      - apply has_key_In. rewrite Hkeys. apply in_or_app. right. left. reflexivity. }
    split; [|split].
    + intros k' Hk'. apply Hmono.
      destruct Hcase as [[Hh Hkeys]|[Hh Hkeys]].
      * rewrite (has_key_keys k' t1 t Hkeys). exact Hk'.
      * apply has_key_In. rewrite Hkeys. apply in_or_app. left.
        apply has_key_In. exact Hk'.
    + constructor; [|exact Hall]. exists k. split; [exact Hk|]. apply Hmono. exact Hk1.
    + intros Hn. apply Hnd.
      destruct Hcase as [[Hh Hkeys]|[Hh Hkeys]]; rewrite Hkeys; [exact Hn|].
      apply NoDup_app. split; [exact Hn|]. split.
      * intros x Hx Hx'. apply list_elem_of_In in Hx, Hx'.
        destruct Hx' as [<-|[]]. apply has_key_In in Hx. congruence.
      * apply NoDup_singleton.
Qed.

Lemma upsert_rows_raises (rows : list row) (t : table) (e : exn) :
  foldM upsert_row rows t = Raise e -> exists r, In r rows /\ row_key r = None.
Proof.
  revert t. induction rows as [|r rows IH]; intros t H; cbn in H; [discriminate|].
  destruct (upsert_row t r) as [t1|e1] eqn:Hr; cbn in H.
  - destruct (IH t1 H) as (r0 & Hin & Hk). exists r0. split; [right|]; assumption.
  - exists r. split; [left; reflexivity|]. eapply upsert_row_raises, Hr.
Qed.

(** Upserting records the table already holds succeeds and leaves the
    identifier column as it was. *)
Lemma upsert_rows_stored (rows : list row) (t0 t : table) :
  keys t = keys t0 -> Forall (keyed_in t0) rows ->
  exists t', foldM upsert_row rows t = Ok t' /\ keys t' = keys t0.
Proof.
  revert t. induction rows as [|r rows IH]; intros t Hkeys Hall; cbn [foldM].
  - eauto.
  - inversion Hall as [|? ? (k & Hk & Hh) Hrest]; subst.
    assert (Hr : upsert_row t r = Ok (update_row k r t)).
    { unfold upsert_row. rewrite Hk, (has_key_keys k t t0 Hkeys), Hh. reflexivity. }
    rewrite Hr. cbn [mbind result_bind].
    apply IH; [|exact Hrest]. rewrite keys_update_row by exact Hk. exact Hkeys.
Qed.

(** ** Theorems: re-running an upsert *)

Section Rerun.

Variable table_name : string.
Variable data : list row.
Variable batch_size : Z.

Local Abbreviation upsert_run :=
  (upload_in_batches table_client table_name data batch_size "upsert").
Local Abbreviation upsert_step :=
  (batch_step table_client table_name data batch_size "upsert").

Lemma prepare_stored (t : table) (l : list row) :
  (forall r, In r l -> stored t r) ->
  exists c, prepare_batch l = Ok c /\ Forall (keyed_in t) c.
Proof.
  unfold prepare_batch. induction l as [|r l IH]; intros H; cbn [mapM].
  - exists []. split; [reflexivity|constructor].
  - destruct (H r) as (r' & k & Hp & Hk & Hh); [left; reflexivity|].
    destruct IH as (c & Hc & Hall); [intros; apply H; right; assumption|].
    rewrite Hp, Hc. cbn [mbind result_bind].
    exists (r' :: c). split; [reflexivity|]. constructor; [|exact Hall].
    exists k. split; assumption.
Qed.

(** A batch of records the table holds: the bulk upsert succeeds. *)
Lemma upsert_step_stored (t : table) (st : upload_state table_client) (i : Z) :
  (forall r, In r data -> stored t r) ->
  keys (db st) = keys t ->
  exists st',
    upsert_step st i = Ok st' /\
    keys (db st') = keys t /\
    failed st' = failed st /\ failed_rows st' = failed_rows st.
Proof.
  intros Hst Hkeys. unfold batch_step.
  destruct (prepare_stored t (py_slice data i (i + batch_size))) as (c & Hc & Hall).
  { intros r Hr. apply Hst. eapply py_slice_In, Hr. }
  rewrite Hc. cbn [mbind result_bind].
  destruct (upsert_rows_stored c t (db st) Hkeys Hall) as (t' & Ht' & Hk').
  unfold write. cbn [String.eqb Ascii.eqb Bool.eqb upsert table_client rows_of].
  rewrite Ht'. cbn [all_or_nothing].
  eexists. split; [reflexivity|]. cbn. auto.
Qed.

Lemma upsert_rerun (t : table) :
  0 < batch_size ->
  (forall r, In r data -> stored t r) ->
  exists out,
    upsert_run t = Ok out /\
    failed (final out) = 0 /\
    failed_rows (final out) = [] /\
    failed_rows_json out = None /\
    keys (db (final out)) = keys t.
Proof.
  intros Hbs Hst. unfold upload_in_batches, total_rows.
  destruct (batch_starts data batch_size Hbs) as (starts & Hr & _ & _).
  rewrite Hr. cbn [mbind result_bind].
  match goal with |- context [foldM _ _ ?st0] =>
    destruct (foldM_returns upsert_step
                (fun st => keys (db st) = keys t /\ failed st = 0 /\ failed_rows st = [])
                starts st0) as (st & Hrun & Hk & Hf & Hfr) end.
  - cbn. auto.
  - intros i st1 _ (Hk & Hf & Hfr).
    destruct (upsert_step_stored t st1 i Hst Hk) as (st2 & Hs2 & Hk2 & Hf2 & Hfr2).
    exists st2. split; [exact Hs2|]. split; [exact Hk2|]. split; congruence.
  - rewrite Hrun. cbn [mbind result_bind]. rewrite Hfr.
    eexists. split; [reflexivity|]. cbn. auto.
Qed.

Lemma stored_mono (t t' : table) (r : row) :
  (forall k, has_key k t = true -> has_key k t' = true) -> stored t r -> stored t' r.
Proof.
  intros Hmono (r' & k & Hp & Hk & Hh). exists r', k. auto.
Qed.

(** The single upsert of a record without identifier fails, whether
    [json.dumps] accepts the record or not. *)
Lemma try_row_unkeyed (r : row) (t : table) :
  row_key r = None ->
  exists e, try_row table_client table_name "upsert" r t = (t, Some e).
Proof.
  intros Hk. unfold try_row. destruct (json_dumps r) as [[]|e]; [|eauto].
  unfold write. cbn [String.eqb Ascii.eqb Bool.eqb upsert table_client rows_of foldM].
  unfold upsert_row. rewrite Hk. cbn. eauto.
Qed.

Lemma fallback_unkeyed (i : Z) (rows : list row) (k : Z) (st : upload_state table_client) :
  (exists r, In r rows /\ row_key r = None) ->
  failed st <
  failed (fold_left (row_step table_client table_name "upsert" i) (enumerate_from k rows) st).
Proof.
  revert k st. induction rows as [|r rows IH]; intros k st (r0 & Hin & Hk);
    [destruct Hin|]. cbn [enumerate_from fold_left].
  destruct Hin as [->|Hin].
  - destruct (try_row_unkeyed r0 (db st) Hk) as [e He].
    destruct (row_step_fail table_client table_name "upsert" i st (k, r0) _ e He)
      as (line & _ & Hstep).
    rewrite Hstep.
    match goal with |- context [fold_left _ _ ?st1] =>
      destruct (fallback_spec table_client table_name "upsert" i rows (k + 1) st1)
        as (news & more & _ & _ & Hc & _) end.
    rewrite Hc. cbn. lia.
  - eapply Z.le_lt_trans; [|apply IH; eauto].
    destruct (fallback_spec table_client table_name "upsert" i [r] k st)
      as (news & more & _ & _ & Hc & _).
    cbn [enumerate_from fold_left] in Hc. rewrite Hc. lia.
Qed.

(** The part of the invariant of a first run that tells what the table
    holds while no record has failed. *)
Lemma first_run_step (pre : list Z) (i : Z) (st st' : upload_state table_client) :
  (0 <= failed st /\
   (failed st = 0 -> forall i0 r, In i0 pre ->
      In r (py_slice data i0 (i0 + batch_size)) -> stored (db st) r)) ->
  upsert_step st i = Ok st' ->
  0 <= failed st' /\
  (failed st' = 0 -> forall i0 r, In i0 (pre ++ [i]) ->
     In r (py_slice data i0 (i0 + batch_size)) -> stored (db st') r).
Proof.
  intros [Hpos Hold] H. unfold batch_step in H.
  destruct (prepare_batch (py_slice data i (i + batch_size))) as [c|e0] eqn:Hprep;
    cbn [mbind result_bind] in H; [|discriminate].
  destruct (mapM_lookup _ _ _ Hprep) as [Hlen Hlk].
  unfold write in H. cbn [String.eqb Ascii.eqb Bool.eqb upsert table_client rows_of] in H.
  destruct (foldM upsert_row c (db st)) as [t'|e] eqn:Hbulk; cbn [all_or_nothing] in H.
  - inversion H; subst st'; clear H. cbn. split; [exact Hpos|].
    destruct (upsert_rows_keys c (db st) t' Hbulk) as (Hmono & Hall & _).
    intros Hf i0 r Hi0 Hr. apply in_app_or in Hi0 as [Hi0|[<-|[]]].
    + eapply stored_mono; [exact Hmono|]. eapply Hold; eauto.
    + apply list_elem_of_In, list_elem_of_lookup in Hr as [j Hj].
      destruct (c !! j) as [r'|] eqn:Hcj.
      * destruct (Hlk j r' Hcj) as (a & Ha & Hpa).
        assert (a = r) by congruence. subst a.
        rewrite List.Forall_forall in Hall.
        destruct (Hall r') as (k & Hk & Hh).
        { apply list_elem_of_In, list_elem_of_lookup. eauto. }
        exists r', k. auto.
      * exfalso. apply lookup_ge_None in Hcj. apply lookup_lt_Some in Hj. lia.
  - cbn [dict_getitem mode_text String.eqb Ascii.eqb Bool.eqb mbind result_bind] in H.
    inversion H; subst st'; clear H.
    apply upsert_rows_raises in Hbulk.
    match goal with |- context [fold_left _ _ ?st1] =>
      pose proof (fallback_unkeyed i c 0 st1 Hbulk) as Hlt end.
    unfold enumerate. cbn [failed print] in Hlt.
    split; [lia|]. intros Hf. exfalso. lia.
Qed.

(** After a run in upsert mode in which no record failed, the table holds
    every record of the dataset. *)
Lemma first_run_stores (t0 : table) (out : upload_outcome table_client) :
  0 < batch_size ->
  upsert_run t0 = Ok out -> failed (final out) = 0 ->
  forall r, In r data -> stored (db (final out)) r.
Proof.
  intros Hbs H Hf. unfold upload_in_batches, total_rows in H.
  destruct (batch_starts data batch_size Hbs) as (starts & Hr & Hcat & _).
  rewrite Hr in H. cbn [mbind result_bind] in H.
  match type of H with context [foldM _ _ ?st0] =>
    destruct (foldM upsert_step starts st0) as [st|e] eqn:Hrun end;
    cbn [mbind result_bind] in H; [|discriminate].
  assert (Hinv : 0 <= failed st /\
    (failed st = 0 -> forall i0 r, In i0 starts ->
       In r (py_slice data i0 (i0 + batch_size)) -> stored (db st) r)).
  { eapply (foldM_invariant upsert_step
             (fun pre st => 0 <= failed st /\
                (failed st = 0 -> forall i0 r, In i0 pre ->
                   In r (py_slice data i0 (i0 + batch_size)) -> stored (db st) r)));
      [| |exact Hrun].
    - cbn. split; [lia|]. intros _ i0 r [].
    - intros pre a s1 s2 _ Hpre Hstep. eapply first_run_step; eauto. }
  assert (Hdb : db (final out) = db st /\ failed (final out) = failed st).
  { destruct (failed_rows st); inversion H; subst out; cbn; auto. }
  destruct Hdb as [-> Hfe]. rewrite Hfe in Hf.
  destruct Hinv as [_ Hinv]. specialize (Hinv Hf).
  intros r Hin. rewrite <- Hcat in Hin. apply in_concat in Hin as (blk & Hblk & Hrb).
  apply in_map_iff in Hblk as (i0 & <- & Hi0). eapply Hinv; eauto.
Qed.

Lemma fallback_NoDup (i : Z) (rows : list row) (k : Z) (st : upload_state table_client) :
  NoDup (keys (db st)) ->
  NoDup (keys (db (fold_left (row_step table_client table_name "upsert" i)
                     (enumerate_from k rows) st))).
Proof.
  revert k st. induction rows as [|r rows IH]; intros k st H0;
    cbn [enumerate_from fold_left]; [exact H0|].
  apply IH. unfold row_step, try_row. cbn [fst snd].
  destruct (json_dumps r) as [[]|e2].
  - unfold write. cbn [String.eqb Ascii.eqb Bool.eqb upsert table_client rows_of].
    destruct (foldM upsert_row [r] (db st)) as [t2|e3] eqn:Hone; cbn [all_or_nothing].
    + cbn. eapply upsert_rows_keys; eauto.
    + destruct (is_JSONDecodeError e3); cbn; exact H0.
  - destruct (is_JSONDecodeError e2); cbn; exact H0.
Qed.

(** Upserts keep the identifier column free of duplicates. *)
Lemma upsert_run_NoDup (t0 : table) (out : upload_outcome table_client) :
  upsert_run t0 = Ok out ->
  NoDup (keys t0) -> NoDup (keys (db (final out))).
Proof.
  intros H Hn. unfold upload_in_batches in H.
  destruct (py_range 0 (total_rows data) batch_size) as [starts|e0];
    cbn [mbind result_bind] in H; [|discriminate].
  match type of H with context [foldM _ _ ?st0] =>
    destruct (foldM upsert_step starts st0) as [st|e] eqn:Hrun end;
    cbn [mbind result_bind] in H; [|discriminate].
  assert (Hst : NoDup (keys (db st))).
  { pose proof (fun H0 Hs => foldM_invariant upsert_step
                   (fun _ st => NoDup (keys (db st))) starts _ st H0 Hs Hrun) as G.
    apply G; [exact Hn|]. clear G.
    intros pre i s1 s2 _ H1 Hstep. unfold batch_step in Hstep.
    destruct (prepare_batch (py_slice data i (i + batch_size))) as [c|e1];
      cbn [mbind result_bind] in Hstep; [|discriminate].
    unfold write in Hstep.
    cbn [String.eqb Ascii.eqb Bool.eqb upsert table_client rows_of] in Hstep.
    destruct (foldM upsert_row c (db s1)) as [t'|e1] eqn:Hbulk; cbn [all_or_nothing] in Hstep.
    - inversion Hstep; subst s2. cbn. eapply upsert_rows_keys; eauto.
    - cbn [dict_getitem mode_text String.eqb Ascii.eqb Bool.eqb mbind result_bind] in Hstep.
      inversion Hstep; subst s2; clear Hstep. unfold enumerate.
      apply fallback_NoDup. exact H1. }
  destruct (failed_rows st); inversion H; subst out; cbn; exact Hst.
Qed.

End Rerun.

(** C4: on the keyed table, when a run in upsert mode ended without a
    failure, running the same upload again on the table it left returns,
    counts every record as a success and none as a failure, writes no
    [failed_rows.json], and leaves the identifier column exactly as it
    was: no entry is added, and no identifier occurs twice if none did
    before the first run. *)
Theorem upsert_rerun_idempotent
    (table_name : string) (data : list row) (batch_size : Z)
    (t0 : table) (out1 : upload_outcome table_client) :
  0 < batch_size ->
  upload_in_batches table_client table_name data batch_size "upsert" t0 = Ok out1 ->
  failed (final out1) = 0 ->
  exists out2,
    upload_in_batches table_client table_name data batch_size "upsert" (db (final out1))
      = Ok out2 /\
    successful (final out2) = Z.of_nat (length data) /\
    failed (final out2) = 0 /\
    failed_rows (final out2) = [] /\
    failed_rows_json out2 = None /\
    keys (db (final out2)) = keys (db (final out1)) /\
    (NoDup (keys t0) -> NoDup (keys (db (final out2)))).
Proof.
  intros Hbs H1 Hf1.
  pose proof (first_run_stores table_name data batch_size t0 out1 Hbs H1 Hf1) as Hst.
  destruct (upsert_rerun table_name data batch_size (db (final out1)) Hbs Hst)
    as (out2 & H2 & Hf2 & Hfr2 & Hj2 & Hk2).
  exists out2. split; [exact H2|].
  destruct (upload_run_spec _ _ _ _ _ _ out2 Hbs H2) as (Hsum & _).
  split; [lia|]. split; [exact Hf2|]. split; [exact Hfr2|]. split; [exact Hj2|].
  split; [exact Hk2|].
  intros Hn. rewrite Hk2. eapply upsert_run_NoDup; eauto.
Qed.

Lemma upsert_rerun_idempotent_witness :
  exists out1 out2,
    upload_in_batches table_client "coatings" keyed_rows 2 "upsert" [] = Ok out1 /\
    upload_in_batches table_client "coatings" keyed_rows 2 "upsert" (db (final out1))
      = Ok out2 /\
    successful (final out2) = 3 /\
    failed (final out2) = 0 /\
    keys (db (final out2)) = [Some "A-1"; Some "A-2"]%string.
Proof.
  destruct (upload_in_batches table_client "coatings" keyed_rows 2 "upsert" [])
    as [out1|e] eqn:H1.
  - assert (Hf1 : failed (final out1) = 0).
    { vm_compute in H1. inversion H1; subst out1. reflexivity. }
    destruct (upsert_rerun_idempotent "coatings" keyed_rows 2 [] out1 ltac:(lia) H1 Hf1)
      as (out2 & H2 & Hs & Hf & _ & _ & Hk & _).
    exists out1, out2. split; [reflexivity|]. split; [exact H2|].
    split; [exact Hs|]. split; [exact Hf|]. rewrite Hk.
    vm_compute in H1. inversion H1; subst out1. reflexivity.
  - vm_compute in H1. discriminate H1.
Defined.

(** ** Theorems: Record Cleaner *)

Lemma float_eq_Z_trunc (x : spec_float) (n : Z) :
  float_eq_Z x n = true -> trunc x = n.
Proof.
  destruct x as [s| s| |s m e]; cbn [float_eq_Z trunc]; try discriminate.
  - intros H. apply Z.eqb_eq in H. congruence.
  - destruct (Z.leb_spec 0 e) as [He|He].
    + intros H. apply Z.eqb_eq in H. exact H.
    + intros H. apply Z.eqb_eq in H.
      assert (Hp : 0 < 2 ^ (- e)) by (apply Z.pow_pos_nonneg; lia).
      destruct s; cbn [signed] in H.
      * replace (Z.pos m) with ((- n) * 2 ^ (- e)) by lia.
        rewrite Z.div_mul by lia. lia.
      * rewrite H. apply Z.div_mul. lia.
Qed.

Lemma float_eq_to_int64 (x : spec_float) :
  float_eq_Z x (to_int64 x) = is_integral x && in_int64 (trunc x).
Proof.
  unfold to_int64, is_integral. destruct (in_int64 (trunc x)) eqn:Hr.
  - rewrite andb_true_r. reflexivity.
  - rewrite andb_false_r. destruct (float_eq_Z x (- 2 ^ 63)) eqn:He; [|reflexivity].
    apply float_eq_Z_trunc in He. rewrite He in Hr. discriminate Hr.
Qed.

Lemma all_eq_to_int64 (xs : list spec_float) :
  all_eq xs (map to_int64 xs) =
  forallb (fun x => is_integral x && in_int64 (trunc x)) xs.
Proof.
  induction xs as [|x xs IH]; cbn [all_eq map forallb]; [reflexivity|].
  rewrite float_eq_to_int64, IH. reflexivity.
Qed.

Lemma dropna_clean (xs : list spec_float) :
  existsb is_missing_float xs = false -> dropna xs = xs.
Proof.
  unfold dropna. induction xs as [|x xs IH]; cbn [existsb List.filter]; [reflexivity|].
  intros H. apply orb_false_iff in H as [Hx Hxs].
  unfold is_missing_float in Hx. apply orb_false_iff in Hx as [Hn _].
  rewrite Hn. cbn [negb]. f_equal. apply IH. exact Hxs.
Qed.

(** On a column without NaN and infinity the test of lines 56-57 does not
    raise, and the column ends as [recast_column] says. *)
Lemma recast_clean (c : column) :
  clean_floats c ->
  recast c = Ok (Some (recast_column c)) \/ (recast c = Ok None /\ recast_column c = c).
Proof.
  intros Hc. destruct c as [xs|xs|xs|xs]; try (right; split; reflexivity).
  specialize (Hc xs eq_refl). unfold recast, recast_column.
  rewrite (dropna_clean xs Hc). destruct (0 <? length xs)%nat; [|right; split; reflexivity].
  unfold astype_int. rewrite Hc. cbn [mbind result_bind andb].
  rewrite all_eq_to_int64.
  destruct (forallb (fun x => is_integral x && in_int64 (trunc x)) xs) eqn:Hall;
    [|right; split; reflexivity].
  left. unfold astype_Int64. do 3 f_equal. apply map_ext_in. intros x Hx.
  rewrite forallb_forall in Hall. specialize (Hall x Hx).
  apply andb_true_iff in Hall as [_ Hr].
  assert (Hn : is_nan x = false).
  { destruct (is_nan x) eqn:E; [|reflexivity].
    assert (existsb is_missing_float xs = true); [|congruence].
    apply existsb_exists. exists x. split; [exact Hx|]. unfold is_missing_float.
    rewrite E. reflexivity. }
  rewrite Hn. unfold to_int64. rewrite Hr. reflexivity.
Qed.

Lemma strip_step_assign (df : nat) (h : heap) (col : string) :
  strip_step df h col = assign_step (fun c => Ok (Some (strip_column c))) df h col.
Proof.
  unfold strip_step, assign_step. destruct (getitem h df col) as [c|e]; [|reflexivity].
  destruct c; reflexivity.
Qed.

(** A loop that assigns to distinct columns of the frame at [df] leaves
    the rest of the heap alone and changes each column named by its own
    rule. *)
Lemma assign_loop (g : column -> result (option column)) (u : column -> column)
    (df : nat) (names : list string) (h : heap) (f : DataFrame) :
  h !! df = Some f -> NoDup names ->
  (forall n, n ∈ names ->
     exists c, f !! n = Some c /\
       (g c = Ok (Some (u c)) \/ (g c = Ok None /\ u c = c))) ->
  exists f',
    foldM (assign_step g df) names h = Ok (<[df := f']> h) /\
    forall n, f' !! n = if decide (n ∈ names) then u <$> (f !! n) else f !! n.
Proof.
  revert h f. induction names as [|n0 names IH]; intros h f Hdf Hnd Hcols.
  - exists f. cbn [foldM]. rewrite list_insert_id by exact Hdf.
    split; [reflexivity|]. intros n. destruct (decide (n ∈ [])) as [H|_]; [|reflexivity].
    inversion H.
  - apply NoDup_cons in Hnd as [Hn0 Hnd].
    destruct (Hcols n0) as (c & Hc & Hg); [left|].
    pose proof (lookup_lt_Some _ _ _ Hdf) as Hlt.
    set (f1 := <[n0 := u c]> f).
    assert (Hstep : assign_step g df h n0 = Ok (<[df := f1]> h)).
    { unfold assign_step, getitem, setitem, deref. rewrite Hdf. cbn [mbind result_bind].
      rewrite Hc. cbn [mbind result_bind].
      destruct Hg as [Hg|[Hg Hu]]; rewrite Hg; cbn [mbind result_bind].
      - reflexivity.
      - subst f1. rewrite Hu, (insert_id f n0 c Hc), list_insert_id by exact Hdf.
        reflexivity. }
    destruct (IH (<[df := f1]> h) f1) as (f' & Hrun & Hlk).
    + apply list_lookup_insert_eq. exact Hlt.
    + exact Hnd.
    + intros n Hn. destruct (Hcols n) as (c' & Hc' & Hg'); [right; exact Hn|].
      exists c'. split; [|exact Hg']. subst f1.
      rewrite lookup_insert_ne; [exact Hc'|]. intros ->. contradiction.
    + exists f'. cbn [foldM]. rewrite Hstep. cbn [mbind result_bind].
      rewrite Hrun, list_insert_insert_eq. split; [reflexivity|].
      intros n. rewrite Hlk. subst f1.
      destruct (decide (n = n0)) as [->|Hne].
      * destruct (decide (n0 ∈ names)) as [?|_]; [contradiction|].
        destruct (decide (n0 ∈ n0 :: names)) as [_|H]; [|exfalso; apply H; left].
        rewrite lookup_insert_eq, Hc. reflexivity.
      * rewrite lookup_insert_ne by congruence.
        destruct (decide (n ∈ names)) as [H|H], (decide (n ∈ n0 :: names)) as [H'|H'];
          try reflexivity.
        -- exfalso. apply H'. right. exact H.
        -- exfalso. apply H. apply elem_of_cons in H' as [?|?]; [contradiction|assumption].
Qed.

(** The same loop over every column, or over every column a test
    selects, the others being fixed points of the rule. *)
Lemma assign_loop_all (g : column -> result (option column)) (u : column -> column)
    (keep : column -> bool) (df : nat) (h : heap) (f : DataFrame) :
  h !! df = Some f ->
  (forall n c, f !! n = Some c -> keep c = true ->
     g c = Ok (Some (u c)) \/ (g c = Ok None /\ u c = c)) ->
  (forall n c, f !! n = Some c -> keep c = false -> u c = c) ->
  foldM (assign_step g df) (columns (filter (fun nc => keep (snd nc) = true) f)) h =
    Ok (<[df := u <$> f]> h).
Proof.
  intros Hdf Hg Hfix.
  destruct (assign_loop g u df (columns (filter (fun nc => keep (snd nc) = true) f)) h f Hdf)
    as (f' & Hrun & Hlk).
  - apply NoDup_fst_map_to_list.
  - intros n Hn. unfold columns in Hn.
    apply list_elem_of_fmap in Hn as ([n' c] & -> & Hin).
    apply elem_of_map_to_list, map_lookup_filter_Some in Hin as [Hc Hk].
    exists c. split; [exact Hc|]. eapply Hg; eauto.
  - rewrite Hrun. do 2 f_equal. apply map_eq. intros n. rewrite Hlk, lookup_fmap.
    destruct (decide (n ∈ columns (filter (fun nc => keep (snd nc) = true) f))) as [_|Hn];
      [reflexivity|].
    destruct (f !! n) as [c|] eqn:Hc; [|reflexivity]. cbn.
    destruct (keep c) eqn:Hk.
    + exfalso. apply Hn. unfold columns. apply list_elem_of_fmap. exists (n, c).
      split; [reflexivity|]. apply elem_of_map_to_list, map_lookup_filter_Some.
      split; assumption.
    + f_equal. symmetry. eapply Hfix; eauto.
Qed.

Lemma assign_loop_columns (g : column -> result (option column)) (u : column -> column)
    (df : nat) (h : heap) (f : DataFrame) :
  h !! df = Some f ->
  (forall n c, f !! n = Some c ->
     g c = Ok (Some (u c)) \/ (g c = Ok None /\ u c = c)) ->
  foldM (assign_step g df) (columns f) h = Ok (<[df := u <$> f]> h).
Proof.
  intros Hdf Hg.
  destruct (assign_loop g u df (columns f) h f Hdf) as (f' & Hrun & Hlk).
  - apply NoDup_fst_map_to_list.
  - intros n Hn. unfold columns in Hn.
    apply list_elem_of_fmap in Hn as ([n' c] & -> & Hin).
    apply elem_of_map_to_list in Hin. exists c. split; [exact Hin|]. eapply Hg; eauto.
  - rewrite Hrun. do 2 f_equal. apply map_eq. intros n. rewrite Hlk, lookup_fmap.
    destruct (decide (n ∈ columns f)) as [_|Hn]; [reflexivity|].
    destruct (f !! n) as [c|] eqn:Hc; [|reflexivity].
    exfalso. apply Hn. unfold columns. apply list_elem_of_fmap. exists (n, c).
    split; [reflexivity|]. apply elem_of_map_to_list. exact Hc.
Qed.

Lemma foldM_ext {A S} (f g : S -> A -> result S) (l : list A) (s : S) :
  (forall s a, f s a = g s a) -> foldM f l s = foldM g l s.
Proof.
  intros H. revert s. induction l as [|a l IH]; intros s; cbn [foldM]; [reflexivity|].
  rewrite H. destruct (g s a); cbn [mbind result_bind]; auto.
Qed.

(** After lines 47-50 no [float64] column holds a NaN or an infinity. *)
Lemma where_replace_clean (f : DataFrame) (n : string) (c : column) :
  df_where_notna (df_replace f) !! n = Some c -> clean_floats c.
Proof.
  unfold df_where_notna, df_replace. rewrite !lookup_fmap.
  destruct (f !! n) as [c0|] eqn:Hc0; [|discriminate]. cbn.
  intros H xs ->. injection H as H.
  destruct c0 as [xs0|xs0|xs0|xs0]; cbn in H.
  - destruct (float_block_hit f) eqn:Hhit; cbn in H; [discriminate|].
    injection H as <-.
    destruct (existsb is_missing_float xs0) eqn:E; [|reflexivity].
    assert (float_block_hit f = true); [|congruence].
    unfold float_block_hit. apply existsb_exists. exists (n, Float64 xs0).
    split; [|exact E]. apply list_elem_of_In, elem_of_map_to_list. exact Hc0.
  - destruct (existsb _ xs0); discriminate.
  - discriminate.
  - discriminate.
Qed.

(** What [clean_data] does to the heap: two frames are added after the
    ones already there, the second of which is returned. *)
Lemma clean_data_spec (h : heap) (df : nat) (f : DataFrame) :
  h !! df = Some f ->
  clean_data h df = Ok (h ++ [df_replace f; clean_frame f], Datatypes.S (length h)).
Proof.
  intros Hdf. unfold clean_data, deref, alloc. rewrite Hdf. cbn [mbind result_bind].
  rewrite (list_lookup_middle h [] (df_replace f) (length h) eq_refl).
  cbn [mbind result_bind].
  set (f2 := df_where_notna (df_replace f)).
  set (h2 := (h ++ [df_replace f]) ++ [f2]).
  set (df2 := length (h ++ [df_replace f])).
  assert (Hdf2 : h2 !! df2 = Some f2) by (apply list_lookup_middle; reflexivity).
  rewrite Hdf2. cbn [mbind result_bind].
  change (recast_step df2) with (assign_step recast df2).
  rewrite (assign_loop_columns recast recast_column df2 h2 f2 Hdf2).
  2:{ intros n c Hc. apply recast_clean. eapply where_replace_clean. exact Hc. }
  cbn [mbind result_bind].
  pose proof (lookup_lt_Some _ _ _ Hdf2) as Hlt.
  rewrite list_lookup_insert_eq by exact Hlt. cbn [mbind result_bind].
  rewrite (foldM_ext (strip_step df2)
             (assign_step (fun c => Ok (Some (strip_column c))) df2))
    by (intros; apply strip_step_assign).
  rewrite (assign_loop_all (fun c => Ok (Some (strip_column c))) strip_column is_object
             df2 _ (recast_column <$> f2)).
  - cbn [mbind result_bind]. rewrite list_insert_insert_eq.
    f_equal. f_equal.
    + subst h2 df2. rewrite <- app_assoc. cbn [app].
      rewrite insert_app_r_alt by (rewrite length_app; cbn; lia).
      replace (length (h ++ [df_replace f]) - length h)%nat with 1%nat
        by (rewrite length_app; cbn; lia).
      reflexivity.
    + subst df2. rewrite length_app. cbn. lia.
  - apply list_lookup_insert_eq. exact Hlt.
  - intros n c _ _. left. reflexivity.
  - intros n c _ Hk. destruct c; try reflexivity. discriminate Hk.
Qed.

Lemma clean_data_result (h : heap) (df : nat) (f : DataFrame) :
  h !! df = Some f ->
  exists h' df', clean_data h df = Ok (h', df') /\ h' !! df' = Some (clean_frame f).
Proof.
  intros Hdf. eexists _, _. split; [apply clean_data_spec; exact Hdf|].
  rewrite lookup_app_r by lia.
  replace (Datatypes.S (length h) - length h)%nat with 1%nat by lia. reflexivity.
Qed.

(** C9: [clean_data] returns a frame that is a new object; the frame the
    caller passed, and every other object there was, is afterwards what it
    was before. *)
Theorem clean_data_leaves_input (h : heap) (df : nat) (f : DataFrame) :
  h !! df = Some f ->
  exists h' df',
    clean_data h df = Ok (h', df') /\
    df' <> df /\
    h !! df' = None /\
    h' !! df = Some f /\
    (forall r g, h !! r = Some g -> h' !! r = Some g) /\
    h' !! df' = Some (clean_frame f).
Proof.
  intros Hdf. pose proof (lookup_lt_Some _ _ _ Hdf) as Hlt.
  eexists _, _. split; [apply clean_data_spec; exact Hdf|].
  split; [lia|]. split; [apply lookup_ge_None; lia|].
  split; [apply lookup_app_l_Some; exact Hdf|].
  split; [intros r g Hr; apply lookup_app_l_Some; exact Hr|].
  rewrite lookup_app_r by lia.
  replace (Datatypes.S (length h) - length h)%nat with 1%nat by lia. reflexivity.
Qed.

Lemma clean_data_leaves_input_witness :
  exists h' df',
    clean_data [ {[ "qty" := Float64 one_two_four ]} ] 0 = Ok (h', df') /\
    h' !! 0%nat = Some ({[ "qty" := Float64 one_two_four ]} : DataFrame) /\
    h' !! df' = Some ({[ "qty" := NullableInt64 [Some 1; Some 2; Some 4] ]} : DataFrame).
Proof.
  destruct (clean_data_leaves_input [ {[ "qty" := Float64 one_two_four ]} ] 0
              {[ "qty" := Float64 one_two_four ]} eq_refl)
    as (h' & df' & Hrun & _ & _ & Hin & _ & Hout).
  exists h', df'. split; [exact Hrun|]. split; [exact Hin|].
  rewrite Hout. vm_compute. reflexivity.
Defined.



(** A column with a value that is not integral stays [float64]. *)
Example clean_data_keeps_fraction :
  exists h',
    clean_data [ {[ "qty" := Float64 one_and_two_and_a_half ]} ] 0 = Ok (h', 2%nat) /\
    h' !! 2%nat = Some ({[ "qty" := Float64 one_and_two_and_a_half ]} : DataFrame).
Proof.
  eexists. split; [apply clean_data_spec; reflexivity|]. vm_compute. reflexivity.
Qed.

(** Text cells are stripped, other cells of the column are left alone. *)
Example clean_data_strips :
  exists h',
    clean_data [ {[ "name" := Object [PyStr " abc "; PyStr "def"; PyNone] ]} ] 0
      = Ok (h', 2%nat) /\
    h' !! 2%nat =
      Some ({[ "name" := Object [PyStr "abc"; PyStr "def"; PyNone] ]} : DataFrame).
Proof.
  eexists. split; [apply clean_data_spec; reflexivity|]. vm_compute. reflexivity.
Qed.


(** ** The batch size

    The results above are for a positive batch size.  With [0] the
    [range] of line 126 raises, and with a negative one it is empty, so
    the loop body never runs. *)

Example upload_zero_batch_size :
  upload_in_batches table_client "coatings" sample_rows 0 "insert" [] =
    Raise (mkExn ValueError "range() arg 3 must not be zero").
Proof. reflexivity. Qed.

Example upload_negative_batch_size :
  exists out,
    upload_in_batches table_client "coatings" sample_rows (-2) "insert" [] = Ok out /\
    successful (final out) = 0 /\ failed (final out) = 0 /\ db (final out) = [].
Proof. eexists. split; [vm_compute; reflexivity|]. cbn. auto. Qed.

(** * Further properties *)

(** ** The normalizer and the preparer *)

Lemma checknull_tolist_item (x : value) : checknull (tolist_item x) = checknull x.
Proof. destruct x; reflexivity. Qed.

(** X1: normalising twice is normalising once: whatever the normalizer
    returns, it returns unchanged when given it again. *)
Theorem convert_to_json_safe_idempotent (obj v : value) :
  convert_to_json_safe obj = Ok v -> convert_to_json_safe v = Ok v.
Proof.
  destruct obj; cbn; try (intros H; inversion H; subst; reflexivity).
  - destruct (is_nan x) eqn:E; cbn; intros H; inversion H; subst; cbn;
      [reflexivity|]. rewrite E. reflexivity.
  - destruct items as [|x [|y items]]; cbn; try discriminate.
    destruct (checknull x) eqn:E; cbn; intros H; inversion H; subst; cbn;
      [reflexivity|]. rewrite E. reflexivity.
  - destruct (is_nan x) eqn:E; cbn; [intros H; inversion H; subst; reflexivity|].
    destruct (is_inf x) eqn:E'; cbn; intros H; inversion H; subst; cbn;
      [reflexivity|]. rewrite E. reflexivity.
  - destruct items as [|x [|y items]]; cbn; try discriminate.
    destruct (checknull x) eqn:E; cbn; intros H; inversion H; subst; cbn;
      [reflexivity|]. rewrite checknull_tolist_item, E. reflexivity.
Qed.

Lemma convert_to_json_safe_idempotent_witness :
  convert_to_json_safe (NdArray [NpFloating (float_of_Z 3)]) = Ok (PyList [PyFloat (float_of_Z 3)]) /\
  convert_to_json_safe (PyList [PyFloat (float_of_Z 3)]) = Ok (PyList [PyFloat (float_of_Z 3)]).
Proof.
  split; [reflexivity|].
  apply (convert_to_json_safe_idempotent (NdArray [NpFloating (float_of_Z 3)])).
  reflexivity.
Defined.



(** The only exception of the normalizer is that [ValueError]. *)
Lemma convert_raises_ValueError (obj : value) (e : exn) :
  convert_to_json_safe obj = Raise e -> exn_cls e = ValueError.
Proof.
  destruct obj; cbn; try discriminate.
  - destruct (is_nan x); discriminate.
  - destruct items as [|x [|y items]]; cbn; try (intros H; inversion H; reflexivity).
    destruct (checknull x); discriminate.
  - destruct (is_nan x); cbn; [discriminate|]. destruct (is_inf x); discriminate.
  - destruct items as [|x [|y items]]; cbn; try (intros H; inversion H; reflexivity).
    destruct (checknull x); discriminate.
Qed.

Lemma mapM_Forall2 {A B} (f : A -> result B) (l : list A) (l' : list B) :
  mapM f l = Ok l' <-> Forall2 (fun a b => f a = Ok b) l l'.
Proof.
  revert l'. induction l as [|a l IH]; intros l'; cbn [mapM].
  - split; [intros H; inversion H; constructor|intros H; inversion H; reflexivity].
  - split.
    + destruct (f a) as [b|e] eqn:Ha; cbn [mbind result_bind]; [|discriminate].
      destruct (mapM f l) as [bs|e] eqn:Hl; cbn [mbind result_bind]; [|discriminate].
      intros H; inversion H; subst. constructor; [exact Ha|]. apply IH. reflexivity.
    + intros H. inversion H as [|? b ? bs Ha Hrest]; subst.
      rewrite Ha. cbn [mbind result_bind].
      apply IH in Hrest. rewrite Hrest. reflexivity.
Qed.

Lemma mapM_raises {A B} (f : A -> result B) (l : list A) (e : exn) :
  mapM f l = Raise e -> exists a, In a l /\ f a = Raise e.
Proof.
  induction l as [|a l IH]; cbn [mapM]; [discriminate|].
  destruct (f a) as [b|e0] eqn:Ha; cbn [mbind result_bind].
  - destruct (mapM f l) as [bs|e1]; cbn [mbind result_bind]; [discriminate|].
    intros H; inversion H; subst.
    destruct (IH eq_refl) as (a0 & Hin & H0). exists a0. split; [right|]; assumption.
  - intros H; inversion H; subst. exists a. split; [left; reflexivity|exact Ha].
Qed.

(** X3: the Batch Preparer keeps the shape of a batch: when it returns,
    the result has the same records in the same order, each with the same
    keys in the same order, and each value is the normalised value. *)
Theorem prepare_batch_shape (batch cleaned : list row) :
  prepare_batch batch = Ok cleaned <-> Forall2 prepared_from batch cleaned.
Proof.
  unfold prepare_batch. rewrite mapM_Forall2.
  split; intros H; (eapply Forall2_impl; [exact H|]); cbn; intros r r' Hr.
  - unfold prepare_row in Hr. apply mapM_Forall2 in Hr.
    eapply Forall2_impl; [exact Hr|]. cbn. intros [k v] [k' v']. cbn.
    destruct (convert_to_json_safe v) as [w|e]; cbn [mbind result_bind]; [|discriminate].
    intros E; inversion E; subst. split; reflexivity.
  - unfold prepare_row. apply mapM_Forall2.
    eapply Forall2_impl; [exact Hr|]. cbn. intros [k v] [k' v']. cbn.
    intros [-> ->]. reflexivity.
Qed.

Lemma prepare_batch_shape_witness :
  Forall2 prepared_from sample_rows
    [ [("sku", PyStr "A-1"); ("thickness", PyFloat (float_of_Z 2))];
      [("sku", PyStr "A-1"); ("thickness", PyNone)];
      [("sku", PyNone); ("thickness", PyInt 3)] ].
Proof.
  apply (proj1 (prepare_batch_shape sample_rows _)). reflexivity.
Defined.

Lemma convert_spreadsheet_cell (v : value) :
  spreadsheet_cell v = true ->
  exists v', convert_to_json_safe v = Ok v' /\ unserializable v' = None.
Proof.
  destruct v; cbn; try discriminate; intros _; try (eexists; split; reflexivity).
  - destruct (is_nan x); eexists; split; reflexivity.
  - destruct (is_nan x); cbn; [eexists; split; reflexivity|].
    destruct (is_inf x); eexists; split; reflexivity.
Qed.

Lemma prepare_row_serializable (r : row) :
  Forall (fun kv => spreadsheet_cell (snd kv) = true) r ->
  exists r', prepare_row r = Ok r' /\ json_dumps r' = Ok tt.
Proof.
  unfold prepare_row. induction r as [|[k v] r IH]; intros H; cbn [mapM].
  - exists []. split; reflexivity.
  - inversion H as [|? ? Hv Hr]; subst. cbn [fst snd] in *.
    destruct (convert_spreadsheet_cell v Hv) as (v' & Hc & Hu).
    destruct (IH Hr) as (r' & Hp & Hj).
    rewrite Hc. cbn [mbind result_bind]. rewrite Hp. cbn [mbind result_bind].
    exists ((k, v') :: r'). split; [reflexivity|]. cbn [json_dumps]. rewrite Hu. exact Hj.
Qed.

(** X4: a batch whose cells are what a spreadsheet holds (nothing, truth
    values, numbers plain or boxed, text, timestamps, missing markers) is
    always prepared, and [json.dumps] accepts every prepared record. *)
Theorem prepared_cells_serializable (batch : list row) :
  Forall (Forall (fun kv => spreadsheet_cell (snd kv) = true)) batch ->
  exists cleaned,
    prepare_batch batch = Ok cleaned /\
    Forall (fun r => json_dumps r = Ok tt) cleaned.
Proof.
  unfold prepare_batch. induction batch as [|r batch IH]; intros H; cbn [mapM].
  - exists []. split; [reflexivity|constructor].
  - inversion H as [|? ? Hr Hb]; subst.
    destruct (prepare_row_serializable r Hr) as (r' & Hp & Hj).
    destruct (IH Hb) as (cleaned & Hc & Hall).
    rewrite Hp. cbn [mbind result_bind]. rewrite Hc. cbn [mbind result_bind].
    exists (r' :: cleaned). split; [reflexivity|]. constructor; assumption.
Qed.

Lemma prepared_cells_serializable_witness :
  exists cleaned,
    prepare_batch sample_rows = Ok cleaned /\
    Forall (fun r => json_dumps r = Ok tt) cleaned.
Proof.
  apply (prepared_cells_serializable sample_rows).
  repeat constructor.
Defined.

(** ** The orchestrator *)

Lemma foldM_invariant_at {A S} (f : S -> A -> result S) (I : list A -> S -> Prop)
    (l : list A) (s0 s : S) :
  I [] s0 ->
  (forall pre a post s1 s2,
     l = pre ++ a :: post -> I pre s1 -> f s1 a = Ok s2 -> I (pre ++ [a]) s2) ->
  foldM f l s0 = Ok s -> I l s.
Proof.
  intros H0 Hstep.
  assert (G : forall post pre s1, l = pre ++ post -> I pre s1 ->
              foldM f post s1 = Ok s -> I (pre ++ post) s).
  { induction post as [|a post IH]; intros pre s1 Hl Hpre Hrun; cbn in Hrun.
    - inversion Hrun; subst s1. rewrite app_nil_r. exact Hpre.
    - destruct (f s1 a) as [s2|e] eqn:Ha; cbn in Hrun; [|discriminate].
      replace (pre ++ a :: post) with ((pre ++ [a]) ++ post)
        by (rewrite <- app_assoc; reflexivity).
      apply (IH _ s2); [rewrite <- app_assoc; exact Hl| |exact Hrun].
      eapply Hstep; eauto. }
  intros Hrun. apply (G l [] s0); auto.
Qed.

Lemma foldM_raises {A S} (f : S -> A -> result S) (l : list A) (s0 : S) (e : exn) :
  foldM f l s0 = Raise e -> exists a s1, In a l /\ f s1 a = Raise e.
Proof.
  revert s0. induction l as [|a l IH]; intros s0; cbn [foldM]; [discriminate|].
  destruct (f s0 a) as [s1|e0] eqn:Ha; cbn [mbind result_bind].
  - intros H. destruct (IH s1 H) as (a0 & s2 & Hin & H0).
    exists a0, s2. split; [right|]; assumption.
  - intros H; inversion H; subst. exists a, s0. split; [left; reflexivity|exact Ha].
Qed.

(** The start of a batch is its rank times the batch size. *)
Lemma start_at (bs : Z) (m : nat) (pre post : list Z) (a : Z) :
  map (fun k => Z.of_nat k * bs) (seq 0 m) = pre ++ a :: post ->
  a = Z.of_nat (length pre) * bs /\ (length pre < m)%nat.
Proof.
  intros H.
  assert (Hlen : length (pre ++ a :: post) = m) by (rewrite <- H, length_map, length_seq; reflexivity).
  rewrite length_app in Hlen. cbn in Hlen.
  assert (Hlk : (pre ++ a :: post) !! length pre = Some a)
    by (apply list_lookup_middle; reflexivity).
  rewrite <- H, list_lookup_fmap in Hlk.
  rewrite (lookup_seq_lt 0 m (length pre)) in Hlk by lia.
  cbn in Hlk. inversion Hlk. split; lia.
Qed.

Lemma py_slice_length_le {A} (l : list A) (lo bs : Z) :
  0 <= lo -> 0 < bs -> Z.of_nat (length (py_slice l lo (lo + bs))) <= bs.
Proof.
  intros Hlo Hbs. unfold py_slice, slice_bound.
  destruct (Z.ltb_spec lo 0) as [?|_]; [lia|].
  destruct (Z.ltb_spec (lo + bs) 0) as [?|_]; [lia|].
  rewrite length_take. lia.
Qed.

Lemma ascending_snoc (l : list Z) (a : Z) :
  ascending l -> Forall (fun b => b < a) l -> ascending (l ++ [a]).
Proof.
  induction l as [|x l IH]; cbn [ascending app]; intros Hs Hlt.
  - split; [constructor|exact I].
  - destruct Hs as [Hx Hl]. inversion Hlt as [|? ? Hxa Hla]; subst.
    split; [|apply IH; assumption].
    apply Forall_app. split; [exact Hx|]. constructor; [exact Hxa|constructor].
Qed.

Section OrchestratorFacts.

Variable supabase : Client.
Variable table_name : string.
Variable data : list row.
Variable batch_size : Z.
Variable mode : string.

Local Abbreviation ostate := (upload_state supabase).
Local Abbreviation orow := (row_step supabase table_name mode).
Local Abbreviation obatch := (batch_step supabase table_name data batch_size mode).
Local Abbreviation orun := (upload_in_batches supabase table_name data batch_size mode).

Lemma fallback_ascending (i : Z) (rows : list row) (k : Z) (st : ostate) :
  ascending (map fr_row (failed_rows st)) ->
  Forall (fun f => fr_row f < i + k) (failed_rows st) ->
  ascending (map fr_row (failed_rows (fold_left (orow i) (enumerate_from k rows) st))) /\
  Forall (fun f => fr_row f < i + k + Z.of_nat (length rows))
    (failed_rows (fold_left (orow i) (enumerate_from k rows) st)).
Proof.
  revert k st. induction rows as [|r rows IH]; intros k st Hs Hb;
    cbn [enumerate_from fold_left length].
  - split; [exact Hs|]. eapply Forall_impl; [exact Hb|]. cbn. intros; lia.
  - destruct (try_row supabase table_name mode r (db st)) as [s' [e|]] eqn:Htry.
    + destruct (row_step_fail supabase table_name mode i st (k, r) s' e Htry)
        as (line & _ & Hstep).
      cbn [fst snd] in Hstep. rewrite Hstep.
      match goal with |- context [fold_left _ _ ?st1] =>
        destruct (IH (k + 1) st1) as [H1 H2] end.
      * cbn [failed_rows]. rewrite map_app. cbn [map fr_row].
        apply ascending_snoc; [exact Hs|].
        apply Forall_fmap. eapply Forall_impl; [exact Hb|]. cbn. intros; lia.
      * cbn [failed_rows]. apply Forall_app. split.
        -- eapply Forall_impl; [exact Hb|]. cbn. intros; lia.
        -- constructor; [cbn; lia|constructor].
      * split; [exact H1|]. eapply Forall_impl; [exact H2|]. cbn. intros; lia.
    + rewrite (row_step_ok supabase table_name mode i st (k, r) s' Htry).
      match goal with |- context [fold_left _ _ ?st1] =>
        destruct (IH (k + 1) st1) as [H1 H2] end.
      * exact Hs.
      * cbn [failed_rows]. eapply Forall_impl; [exact Hb|]. cbn. intros; lia.
      * split; [exact H1|]. eapply Forall_impl; [exact H2|]. cbn. intros; lia.
Qed.

Lemma batch_step_ascending (st st' : ostate) (i : Z) :
  0 < batch_size -> 0 <= i ->
  ascending (map fr_row (failed_rows st)) ->
  Forall (fun f => fr_row f < i) (failed_rows st) ->
  obatch st i = Ok st' ->
  ascending (map fr_row (failed_rows st')) /\
  Forall (fun f => fr_row f < i + batch_size) (failed_rows st').
Proof.
  intros Hbs Hi Hs Hb H. unfold batch_step in H.
  destruct (prepare_batch (py_slice data i (i + batch_size))) as [cleaned|e0] eqn:Hprep;
    cbn [mbind result_bind] in H; [|discriminate].
  destruct (mapM_lookup _ _ _ Hprep) as [Hlen _].
  pose proof (py_slice_length_le data i batch_size Hi Hbs) as Hle.
  destruct (write supabase table_name mode (Records cleaned) (db st)) as [s' [e|]].
  - destruct (dict_getitem mode_text mode) as [verb|e1];
      cbn [mbind result_bind] in H; [|discriminate].
    inversion H; subst st'; clear H. unfold enumerate.
    match goal with |- context [fold_left _ _ ?st1] =>
      destruct (fallback_ascending i cleaned 0 st1) as [H1 H2] end.
    + exact Hs.
    + cbn [failed_rows print]. eapply Forall_impl; [exact Hb|]. cbn. intros; lia.
    + split; [exact H1|]. eapply Forall_impl; [exact H2|]. cbn. intros; lia.
  - inversion H; subst st'; clear H. cbn [failed_rows].
    split; [exact Hs|]. eapply Forall_impl; [exact Hb|]. cbn. intros; lia.
Qed.

(** X5: the entries of [failed_rows] come in the order of the dataset:
    their row numbers go strictly up, so no record has two entries. *)
Theorem failed_rows_ascending (s : store supabase) (out : upload_outcome supabase) :
  0 < batch_size ->
  orun s = Ok out ->
  ascending (map fr_row (failed_rows (final out))).
Proof.
  intros Hbs H. unfold upload_in_batches, total_rows in H.
  rewrite py_range_batches in H by lia. cbn [mbind result_bind] in H.
  match type of H with context [foldM _ ?starts ?st0] =>
    destruct (foldM obatch starts st0) as [st|e] eqn:Hrun end;
    cbn [mbind result_bind] in H; [|discriminate].
  assert (Hinv : ascending (map fr_row (failed_rows st))).
  { match type of Hrun with foldM _ ?starts ?st0 = _ =>
      pose proof (foldM_invariant_at obatch
        (fun pre st => ascending (map fr_row (failed_rows st)) /\
           Forall (fun f => fr_row f < Z.of_nat (length pre) * batch_size) (failed_rows st))
        starts st0 st) as G end.
    apply G; [| |exact Hrun]; clear G.
    - cbn. split; [exact I|constructor].
    - intros pre a post s1 s2 Hl [Hs Hb] Hstep.
      apply start_at in Hl as [-> _].
      rewrite length_app. cbn [length].
      replace (Z.of_nat (length pre + 1) * batch_size)
        with (Z.of_nat (length pre) * batch_size + batch_size) by lia.
      eapply batch_step_ascending; eauto. lia. }
  destruct (failed_rows st) eqn:Hfr; inversion H; subst out; cbn [final failed_rows print];
    rewrite Hfr; exact Hinv.
Qed.

End OrchestratorFacts.

Lemma failed_rows_ascending_witness :
  exists out,
    upload_in_batches table_client "coatings" sample_rows 2 "insert" [] = Ok out /\
    map fr_row (failed_rows (final out)) = [1; 2] /\
    ascending (map fr_row (failed_rows (final out))).
Proof.
  destruct (upload_in_batches table_client "coatings" sample_rows 2 "insert" [])
    as [out|e] eqn:Hout.
  - exists out. split; [reflexivity|]. split.
    + vm_compute in Hout. inversion Hout; subst out. reflexivity.
    + apply (failed_rows_ascending table_client "coatings" sample_rows 2 "insert" []);
        [lia|exact Hout].
  - vm_compute in Hout. discriminate Hout.
Defined.

Section OrchestratorRuns.

Variable supabase : Client.
Variable table_name : string.
Variable data : list row.
Variable batch_size : Z.
Variable mode : string.

Local Abbreviation rstate := (upload_state supabase).
Local Abbreviation rbatch := (batch_step supabase table_name data batch_size mode).
Local Abbreviation rrun := (upload_in_batches supabase table_name data batch_size mode).
Local Abbreviation slice_at := (fun i => py_slice data i (i + batch_size)).

(** X6: [failed_rows.json] is written exactly when some record failed, and
    it then holds the entries of [failed_rows], one for each failure
    counted. *)
Theorem failure_file_iff_failed (s : store supabase) (out : upload_outcome supabase) :
  0 < batch_size ->
  rrun s = Ok out ->
  match failed_rows_json out with
  | None => failed (final out) = 0 /\ failed_rows (final out) = []
  | Some entries =>
      entries = failed_rows (final out) /\
      Z.of_nat (length entries) = failed (final out) /\
      0 < failed (final out)
  end.
Proof.
  intros Hbs H.
  destruct (upload_run_spec _ _ _ _ _ s out Hbs H) as (_ & Hcnt & _ & Hjson).
  rewrite Hjson. destruct (failed_rows (final out)) as [|f fs] eqn:Hfr.
  - rewrite Hcnt. split; reflexivity.
  - rewrite Hcnt. cbn [length]. repeat split; lia.
Qed.

Lemma bulk_fold (starts : list Z) (cl : list (list row)) (st : rstate) (s' : store supabase) :
  mapM prepare_batch (map slice_at starts) = Ok cl ->
  bulk_writes supabase table_name mode cl (db st) = Some s' ->
  exists st',
    foldM rbatch starts st = Ok st' /\
    db st' = s' /\ failed st' = failed st /\ failed_rows st' = failed_rows st.
Proof.
  revert cl st. induction starts as [|i starts IH]; intros cl st Hprep Hbulk;
    cbn [map mapM foldM] in *.
  - inversion Hprep; subst cl. cbn in Hbulk. inversion Hbulk; subst s'.
    exists st. auto.
  - destruct (prepare_batch (py_slice data i (i + batch_size))) as [c|e] eqn:Hc;
      cbn [mbind result_bind] in Hprep; [|discriminate].
    destruct (mapM prepare_batch (map slice_at starts)) as [cl'|e] eqn:Hcl;
      cbn [mbind result_bind] in Hprep; [|discriminate].
    inversion Hprep; subst cl. cbn [bulk_writes] in Hbulk.
    destruct (write supabase table_name mode (Records c) (db st)) as [s1 [e|]] eqn:Hw;
      [discriminate|].
    assert (Hstep : exists st1, rbatch st i = Ok st1 /\ db st1 = s1 /\
                      failed st1 = failed st /\ failed_rows st1 = failed_rows st).
    { unfold batch_step. rewrite Hc. cbn [mbind result_bind]. rewrite Hw.
      eexists. split; [reflexivity|]. cbn. auto. }
    destruct Hstep as (st1 & Hs1 & Hd1 & Hf1 & Hfr1).
    rewrite Hs1. cbn [mbind result_bind].
    destruct (IH cl' st1 eq_refl) as (st' & Hrun & Hdb & Hf & Hfr);
      [rewrite Hd1; exact Hbulk|].
    exists st'. split; [exact Hrun|]. split; [exact Hdb|]. split; congruence.
Qed.

(** X7: when the bulk call of every batch succeeds, the run makes no other
    call: the store ends as those bulk calls leave it, every record counts
    as a success, and no [failed_rows.json] is written. *)
Theorem bulk_success_run (bl cl : list (list row)) (s s' : store supabase) :
  0 < batch_size ->
  batches data batch_size = Ok bl ->
  mapM prepare_batch bl = Ok cl ->
  bulk_writes supabase table_name mode cl s = Some s' ->
  exists out,
    rrun s = Ok out /\
    db (final out) = s' /\
    successful (final out) = Z.of_nat (length data) /\
    failed (final out) = 0 /\
    failed_rows_json out = None.
Proof.
  intros Hbs Hb Hprep Hbulk.
  assert (Hex : exists out, rrun s = Ok out /\ db (final out) = s' /\
                  failed (final out) = 0 /\ failed_rows_json out = None).
  { unfold batches in Hb. unfold upload_in_batches.
    destruct (py_range 0 (total_rows data) batch_size) as [starts|e];
      cbn [mbind result_bind] in Hb |- *; [|discriminate].
    inversion Hb; subst bl.
    match goal with |- context [foldM _ _ ?st0] =>
      destruct (bulk_fold starts cl st0 s' Hprep Hbulk) as (st & Hrun & Hdb & Hf & Hfr) end.
    rewrite Hrun. cbn [mbind result_bind]. cbn in Hfr. rewrite Hfr.
    eexists. split; [reflexivity|]. cbn. auto. }
  destruct Hex as (out & Hrun & Hdb & Hf & Hj). exists out.
  destruct (upload_run_spec _ _ _ _ _ s out Hbs Hrun) as (Hsum & _).
  repeat split; try assumption. lia.
Qed.

Lemma run_prepares_every_batch (starts : list Z) (st0 st : rstate) :
  foldM rbatch starts st0 = Ok st ->
  forall i, In i starts -> returns (prepare_batch (py_slice data i (i + batch_size))).
Proof.
  intros Hrun.
  apply (foldM_invariant rbatch
           (fun pre _ => forall i, In i pre ->
              returns (prepare_batch (py_slice data i (i + batch_size))))
           starts st0 st); [intros i []| |exact Hrun].
  intros pre a s1 s2 _ Hpre Hstep i Hi. apply in_app_or in Hi as [Hi|[<-|[]]]; [auto|].
  unfold batch_step in Hstep.
  destruct (prepare_batch (py_slice data a (a + batch_size))); [eexists; reflexivity|].
  discriminate Hstep.
Qed.

(** X8: a record the normalizer rejects stops the whole run: the call of
    [prepare_batch] is outside the [try], so the run raises instead of
    recording a failure for the record. *)
Theorem normalizer_raise_aborts_run (s : store supabase) (e : exn) :
  0 < batch_size ->
  prepare_batch data = Raise e ->
  exists e', rrun s = Raise e'.
Proof.
  intros Hbs Hprep. destruct (rrun s) as [out|e'] eqn:Hrun; [|eauto]. exfalso.
  unfold upload_in_batches, total_rows in Hrun.
  destruct (batch_starts data batch_size Hbs) as (starts & Hr & Hcat & _).
  rewrite Hr in Hrun. cbn [mbind result_bind] in Hrun.
  match type of Hrun with context [foldM _ _ ?st0] =>
    destruct (foldM rbatch starts st0) as [st|e1] eqn:Hfold end;
    cbn [mbind result_bind] in Hrun; [|discriminate].
  pose proof (run_prepares_every_batch starts _ st Hfold) as Hall.
  assert (Hret : returns (prepare_batch data)).
  { apply mapM_returns. intros r Hin. rewrite <- Hcat in Hin.
    apply in_concat in Hin as (blk & Hblk & Hrb).
    apply in_map_iff in Hblk as (i & <- & Hi).
    apply (proj2 (mapM_returns prepare_row _) (Hall i Hi) r Hrb). }
  destruct Hret as [c Hc]. congruence.
Qed.

Lemma batch_step_raise_origin (st : rstate) (i : Z) (e : exn) :
  rbatch st i = Raise e ->
  (exists r kv, In r data /\ In kv r /\
     convert_to_json_safe (snd kv) = Raise e /\ exn_cls e = ValueError) \/
  (e = mkExn KeyError mode /\ dict_getitem mode_text mode = Raise e).
Proof.
  intros Hstep. unfold batch_step in Hstep.
  destruct (prepare_batch (py_slice data i (i + batch_size))) as [c|e1] eqn:Hc;
    cbn [mbind result_bind] in Hstep.
  - right. destruct (write supabase table_name mode (Records c) (db st)) as [s2 [e2|]];
      [|discriminate].
    destruct (dict_getitem mode_text mode) as [verb|e3] eqn:Hm;
      cbn [mbind result_bind] in Hstep; [discriminate|].
    inversion Hstep; subst e3. split; [|reflexivity].
    clear -Hm. unfold mode_text in Hm. cbn [dict_getitem] in Hm.
    repeat match type of Hm with (if ?b then _ else _) = _ =>
      destruct b; [discriminate|] end.
    inversion Hm. reflexivity.
  - left. inversion Hstep; subst e1.
    apply mapM_raises in Hc as (r & Hin & Hrow).
    apply py_slice_In in Hin.
    unfold prepare_row in Hrow. apply mapM_raises in Hrow as (kv & Hkv & Hconv).
    destruct (convert_to_json_safe (snd kv)) as [v|e1] eqn:Hv;
      cbn [mbind result_bind] in Hconv; [discriminate|].
    inversion Hconv; subst e1.
    exists r, kv. repeat split; try assumption.
    eapply convert_raises_ValueError, Hv.
Qed.

(** X9: every exception of [upload_in_batches] has one of three origins:
    a batch size of zero, a record the normalizer rejects, or a mode that
    [mode_text] does not know (met when a bulk call fails).  No error of
    the store ever leaves the function. *)
Theorem upload_exceptions (s : store supabase) (e : exn) :
  rrun s = Raise e ->
  (batch_size = 0 /\ exn_cls e = ValueError) \/
  (exists r kv, In r data /\ In kv r /\
     convert_to_json_safe (snd kv) = Raise e /\ exn_cls e = ValueError) \/
  (e = mkExn KeyError mode /\ dict_getitem mode_text mode = Raise e).
Proof.
  unfold upload_in_batches. intros H.
  destruct (py_range 0 (total_rows data) batch_size) as [starts|e0] eqn:Hr;
    cbn [mbind result_bind] in H.
  - right.
    match type of H with context [foldM _ _ ?st0] =>
      destruct (foldM rbatch starts st0) as [st|e1] eqn:Hfold end;
      cbn [mbind result_bind] in H.
    { destruct (failed_rows st); discriminate H. }
    inversion H; subst e1.
    apply foldM_raises in Hfold as (i & s1 & _ & Hstep).
    eapply batch_step_raise_origin, Hstep.
  - left. inversion H; subst e0. unfold py_range in Hr.
    destruct (Z.eqb_spec batch_size 0) as [->|_]; [|discriminate].
    inversion Hr. split; reflexivity.
Qed.

(** X10: whenever a property of the store is kept by every call of the
    write the mode selects ([upsert] for mode [upsert], [insert] for any
    other), a run keeps it: the run reaches the store through these calls
    only. *)
Theorem run_keeps_store_invariant (P : store supabase -> Prop)
    (s : store supabase) (out : upload_outcome supabase) :
  (forall p s1, P s1 -> P (fst (write supabase table_name mode p s1))) ->
  P s ->
  rrun s = Ok out ->
  P (db (final out)).
Proof.
  intros Hw Hs H. unfold upload_in_batches in H.
  destruct (py_range 0 (total_rows data) batch_size) as [starts|e0];
    cbn [mbind result_bind] in H; [|discriminate].
  match type of H with context [foldM _ _ ?st0] =>
    destruct (foldM rbatch starts st0) as [st|e] eqn:Hrun end;
    cbn [mbind result_bind] in H; [|discriminate].
  assert (Hst : P (db st)).
  { pose proof (fun H0 Hs => foldM_invariant rbatch
                   (fun _ st => P (db st)) starts _ st H0 Hs Hrun) as G.
    apply G; [exact Hs|]. clear G.
    intros pre i s1 s2 _ H1 Hstep. unfold batch_step in Hstep.
    destruct (prepare_batch (py_slice data i (i + batch_size))) as [c|e1];
      cbn [mbind result_bind] in Hstep; [|discriminate].
    pose proof (Hw (Records c) (db s1) H1) as Hb.
    destruct (write supabase table_name mode (Records c) (db s1)) as [s' [e1|]];
      cbn [fst] in Hb.
    - destruct (dict_getitem mode_text mode) as [verb|e2];
        cbn [mbind result_bind] in Hstep; [|discriminate].
      inversion Hstep; subst s2; clear Hstep. unfold enumerate.
      match goal with |- context [fold_left _ _ ?st1] =>
        assert (H0 : P (db st1)) by exact Hb; revert H0; generalize st1 end.
      generalize 0. clear -Hw.
      induction c as [|r c IHc]; intros k st1 H0;
        cbn [enumerate_from fold_left]; [exact H0|].
      apply IHc. unfold row_step, try_row. cbn [fst snd].
      destruct (json_dumps r) as [[]|e2].
      + pose proof (Hw (Record1 r) (db st1) H0) as H1.
        destruct (write supabase table_name mode (Record1 r) (db st1)) as [s2 [e3|]];
          cbn [fst] in H1.
        * destruct (is_JSONDecodeError e3); cbn; exact H1.
        * cbn. exact H1.
      + destruct (is_JSONDecodeError e2); cbn; exact H0.
    - inversion Hstep; subst s2. cbn. exact Hb. }
  destruct (failed_rows st); inversion H; subst out; cbn; exact Hst.
Qed.

End OrchestratorRuns.

Lemma failure_file_iff_failed_witness :
  exists out entries,
    upload_in_batches table_client "coatings" sample_rows 2 "insert" [] = Ok out /\
    failed_rows_json out = Some entries /\
    entries = failed_rows (final out) /\
    Z.of_nat (length entries) = failed (final out).
Proof.
  destruct (upload_in_batches table_client "coatings" sample_rows 2 "insert" [])
    as [out|e] eqn:Hout.
  - pose proof (failure_file_iff_failed table_client "coatings" sample_rows 2 "insert" []
                  out ltac:(lia) Hout) as H.
    destruct (failed_rows_json out) as [entries|] eqn:Hj.
    + exists out, entries. destruct H as (H1 & H2 & _). auto.
    + exfalso. destruct H as [H _]. vm_compute in Hout. inversion Hout; subst out.
      discriminate H.
  - vm_compute in Hout. discriminate Hout.
Defined.

Lemma bulk_success_run_witness :
  exists out,
    upload_in_batches table_client "coatings" keyed_rows 2 "upsert" [] = Ok out /\
    successful (final out) = 3 /\ failed (final out) = 0 /\
    failed_rows_json out = None.
Proof.
  pose proof (fun bl cl s' =>
    bulk_success_run table_client "coatings" keyed_rows 2 "upsert" bl cl [] s'
      ltac:(lia)) as H.
  edestruct H as (out & H1 & _ & H3 & H4 & H5).
  - reflexivity.
  - reflexivity.
  - reflexivity.
  - exists out. auto.
Defined.

Lemma normalizer_raise_aborts_run_witness :
  exists e',
    upload_in_batches table_client "coatings" rows_with_array 1 "upsert" [] = Raise e'.
Proof.
  eapply (normalizer_raise_aborts_run table_client "coatings" rows_with_array 1 "upsert" []).
  - lia.
  - vm_compute. reflexivity.
Defined.

Lemma upload_exceptions_witness :
  exists e,
    upload_in_batches table_client "coatings" rows_with_array 1 "upsert" [] = Raise e /\
    exn_cls e = ValueError.
Proof.
  destruct (upload_in_batches table_client "coatings" rows_with_array 1 "upsert" [])
    as [out|e] eqn:Hrun.
  - vm_compute in Hrun. discriminate Hrun.
  - exists e. split; [reflexivity|].
    destruct (upload_exceptions table_client "coatings" rows_with_array 1 "upsert" [] e Hrun)
      as [[_ H]|[(r & kv & _ & _ & _ & H)|[H _]]]; try exact H.
    vm_compute in Hrun. rewrite H in Hrun. discriminate Hrun.
Defined.

Lemma upsert_keeps_NoDup (p : payload) (t : table) :
  NoDup (keys t) -> NoDup (keys (fst (write table_client "coatings" "upsert" p t))).
Proof.
  intros Hn. unfold write. cbn [String.eqb Ascii.eqb Bool.eqb upsert table_client].
  destruct (foldM upsert_row (rows_of p) t) as [t'|e] eqn:H; cbn [all_or_nothing fst].
  - eapply upsert_rows_keys; eauto.
  - exact Hn.
Qed.

Lemma run_keeps_store_invariant_witness :
  exists out,
    upload_in_batches table_client "coatings" sample_rows 2 "upsert" [] = Ok out /\
    NoDup (keys (db (final out))).
Proof.
  destruct (upload_in_batches table_client "coatings" sample_rows 2 "upsert" [])
    as [out|e] eqn:Hrun.
  - exists out. split; [reflexivity|].
    apply (run_keeps_store_invariant table_client "coatings" sample_rows 2 "upsert"
             (fun t => NoDup (keys t)) [] out).
    + apply upsert_keeps_NoDup.
    + constructor.
    + exact Hrun.
  - vm_compute in Hrun. discriminate Hrun.
Defined.

(** X11: on an empty dataset the run returns at once, whatever the store,
    the mode and the (non-zero) batch size: no call is made, nothing is
    counted, no file is written. *)
Theorem upload_empty_dataset
    (supabase : Client) (table_name : string) (batch_size : Z) (mode : string)
    (s : store supabase) :
  batch_size <> 0 ->
  upload_in_batches supabase table_name [] batch_size mode s =
    Ok (mkOutcome supabase
          (mkState supabase s 0 0 [] [LogStart 0 batch_size mode; LogSummary 0 0 0])
          None).
Proof.
  intros Hbs. unfold upload_in_batches, total_rows, py_range. cbn [length].
  change (Z.of_nat 0) with 0.
  destruct (Z.eqb_spec batch_size 0) as [?|_]; [contradiction|].
  assert (Hn : (if 0 <? batch_size then (0 - 0 + batch_size - 1) / batch_size
                else (0 - 0 - batch_size - 1) / - batch_size) = 0).
  { destruct (Z.ltb_spec 0 batch_size).
    - apply Z.div_small. lia.
    - apply Z.div_small. lia. }
  rewrite Hn. reflexivity.
Qed.

Lemma upload_empty_dataset_witness :
  upload_in_batches table_client "coatings" [] 500 "replace" [[("sku", PyStr "A-1")]] =
    Ok (mkOutcome table_client
          (mkState table_client [[("sku", PyStr "A-1")]] 0 0 []
             [LogStart 0 500 "replace"; LogSummary 0 0 0])
          None).
Proof.
  apply (upload_empty_dataset table_client "coatings" 500 "replace"). lia.
Defined.

Lemma py_range_head (n bs : Z) :
  0 < n -> 0 < bs -> exists rest, py_range 0 n bs = Ok (0 :: rest).
Proof.
  intros Hn Hbs. rewrite py_range_batches by lia.
  destruct (batch_count_bounds n bs) as (Hm0 & Hm1 & _); [lia..|].
  destruct (Z.to_nat ((n + bs - 1) / bs)) as [|m] eqn:E; [nia|].
  cbn [seq map]. eexists. reflexivity.
Qed.

(** X12: a mode that [mode_text] does not know is served as an insert, but
    only as long as no bulk call fails: when the first one does, the run
    raises [KeyError] instead of falling back to single records. *)
Theorem unknown_mode_raises
    (supabase : Client) (table_name : string) (data : list row) (batch_size : Z)
    (mode : string) (s s1 : store supabase) (cleaned : list row) (e0 e : exn) :
  0 < batch_size -> data <> [] ->
  dict_getitem mode_text mode = Raise e0 ->
  prepare_batch (py_slice data 0 (0 + batch_size)) = Ok cleaned ->
  insert supabase table_name (Records cleaned) s = (s1, Some e) ->
  upload_in_batches supabase table_name data batch_size mode s =
    Raise (mkExn KeyError mode).
Proof.
  intros Hbs Hne Hmode Hprep Hins.
  assert (Hn : 0 < Z.of_nat (length data)) by (destruct data; [contradiction|cbn; lia]).
  assert (Hup : String.eqb mode "upsert" = false).
  { destruct (String.eqb_spec mode "upsert") as [->|_]; [|reflexivity].
    cbn in Hmode. discriminate Hmode. }
  assert (He0 : e0 = mkExn KeyError mode).
  { clear -Hmode. unfold mode_text in Hmode. cbn [dict_getitem] in Hmode.
    repeat match type of Hmode with (if ?b then _ else _) = _ =>
      destruct b; [discriminate|] end.
    inversion Hmode. reflexivity. }
  unfold upload_in_batches, total_rows.
  destruct (py_range_head (Z.of_nat (length data)) batch_size Hn Hbs) as [rest ->].
  cbn [mbind result_bind foldM].
  assert (Hstep : forall st, db st = s ->
            batch_step supabase table_name data batch_size mode st 0 =
            Raise (mkExn KeyError mode)).
  { intros st Hdb. unfold batch_step. rewrite Hprep. cbn [mbind result_bind].
    unfold write. rewrite Hup, Hdb, Hins, Hmode, He0. reflexivity. }
  rewrite Hstep by reflexivity. reflexivity.
Qed.

Lemma unknown_mode_raises_witness :
  upload_in_batches table_client "coatings" sample_rows 2 "merge" [] =
    Raise (mkExn KeyError "merge").
Proof.
  eapply (unknown_mode_raises table_client "coatings" sample_rows 2 "merge" []).
  - lia.
  - discriminate.
  - vm_compute. reflexivity.
  - vm_compute. reflexivity.
  - vm_compute. reflexivity.
Defined.

(** ** main *)

Lemma clear_table_off_phrase
    (supabase : Client) (table_name response : string) (s : store supabase) :
  response <> "DELETE ALL" ->
  clear_table supabase table_name response s =
    (s, false, [LogClearWarning table_name; LogClearCancelled]).
Proof.
  intros Hne. unfold clear_table.
  destruct (String.eqb_spec response "DELETE ALL") as [->|_]; [contradiction|].
  reflexivity.
Qed.

Section MainFacts.

Variable supabase : Client.
Variable to_dict_records : DataFrame -> list row.
Variable UPLOAD_MODE : string.

Local Abbreviation run_main := (main supabase to_dict_records UPLOAD_MODE).
Local Abbreviation records_of := (fun f : DataFrame => to_dict_records (clean_frame f)).

(** [main] once the frame is cleaned: the records are those of the cleaned
    frame. *)
Lemma main_cleaned (h : heap) (df : nat) (f : DataFrame)
    (responses : list string) (s : store supabase) :
  h !! df = Some f ->
  run_main h df responses s =
    match compatibility_probe (records_of f) with
    | Raise e => Ok (mkMain supabase (NotCompatible e) s responses)
    | Ok _ =>
        if String.eqb UPLOAD_MODE "replace" then
          answer ← input responses;
          match clear_table supabase TABLE_NAME (fst answer) s with
          | (s', false, _) => Ok (mkMain supabase ClearRefused s' (snd answer))
          | (s', true, _) =>
              confirm_and_upload supabase (records_of f) "insert" (snd answer) s'
          end
        else if String.eqb UPLOAD_MODE "upsert" then
          confirm_and_upload supabase (records_of f) "upsert" responses s
        else
          confirm_and_upload supabase (records_of f) "insert" responses s
    end.
Proof.
  intros Hdf. unfold main. rewrite (clean_data_spec h df f Hdf).
  cbn [mbind result_bind fst snd]. unfold deref.
  rewrite lookup_app_r by lia.
  replace (Datatypes.S (length h) - length h)%nat with 1%nat by lia.
  cbn [lookup list_lookup mbind result_bind]. reflexivity.
Qed.


(** X14: in mode [replace], a first answer other than the exact phrase
    [DELETE ALL] ends [main] with the store as it was: nothing is deleted
    and nothing is uploaded, whatever would have been answered next. *)
Theorem main_replace_refused (h : heap) (df : nat) (f : DataFrame)
    (answer : string) (rest : list string) (s : store supabase) :
  h !! df = Some f ->
  returns (compatibility_probe (records_of f)) ->
  UPLOAD_MODE = "replace" ->
  answer <> "DELETE ALL" ->
  run_main h df (answer :: rest) s = Ok (mkMain supabase ClearRefused s rest).
Proof.
  intros Hdf [u Hp] Hmode Hans. rewrite (main_cleaned h df f _ s Hdf), Hp, Hmode.
  cbn [String.eqb Ascii.eqb Bool.eqb input mbind result_bind fst snd].
  rewrite (clear_table_off_phrase supabase TABLE_NAME answer s Hans). reflexivity.
Qed.

(** X15: in a mode other than [replace], an answer to the last question
    that is not [yes] in some letter case ends [main] with the store
    untouched. *)
Theorem main_cancelled (h : heap) (df : nat) (f : DataFrame)
    (answer : string) (rest : list string) (s : store supabase) :
  h !! df = Some f ->
  returns (compatibility_probe (records_of f)) ->
  UPLOAD_MODE <> "replace" ->
  str_lower answer <> "yes" ->
  run_main h df (answer :: rest) s = Ok (mkMain supabase Cancelled s rest).
Proof.
  intros Hdf [u Hp] Hmode Hans. rewrite (main_cleaned h df f _ s Hdf), Hp.
  destruct (String.eqb_spec UPLOAD_MODE "replace") as [?|_]; [contradiction|].
  assert (Hc : forall m, confirm_and_upload supabase (records_of f) m (answer :: rest) s =
                 Ok (mkMain supabase Cancelled s rest)).
  { intros m. unfold confirm_and_upload. cbn [input mbind result_bind fst snd].
    destruct (String.eqb_spec (str_lower answer) "yes") as [?|_]; [contradiction|].
    reflexivity. }
  rewrite !Hc. destruct (String.eqb UPLOAD_MODE "upsert"); reflexivity.
Qed.

(** X16: in mode [replace] the table is cleared before the last question
    is asked: when the delete went through and the answer is not [yes],
    [main] ends with the store the delete left and nothing uploaded. *)
Theorem main_replace_cleared_then_cancelled (h : heap) (df : nat) (f : DataFrame)
    (answer : string) (rest : list string) (s s' : store supabase) :
  h !! df = Some f ->
  returns (compatibility_probe (records_of f)) ->
  UPLOAD_MODE = "replace" ->
  delete_neq supabase TABLE_NAME "sku" (PyStr "") s = (s', None) ->
  str_lower answer <> "yes" ->
  run_main h df ("DELETE ALL" :: answer :: rest) s =
    Ok (mkMain supabase Cancelled s' rest).
Proof.
  intros Hdf [u Hp] Hmode Hdel Hans.
  rewrite (main_cleaned h df f _ s Hdf), Hp, Hmode.
  cbn [String.eqb Ascii.eqb Bool.eqb input mbind result_bind fst snd].
  unfold clear_table. cbn [String.eqb Ascii.eqb Bool.eqb negb]. rewrite Hdel.
  unfold confirm_and_upload. cbn [input mbind result_bind fst snd].
  destruct (String.eqb_spec (str_lower answer) "yes") as [?|_]; [contradiction|].
  reflexivity.
Qed.



End MainFacts.

Section MainReplace.

Variable supabase : Client.
Variable to_dict_records : DataFrame -> list row.

(** X18: mode [replace] uploads with the semantics of [insert]: once the
    delete went through and the last answer is [yes] in any letter case,
    [main] ends as [upload_in_batches] does in mode [insert], started on
    the store the delete left. *)
Theorem main_replace_uploads_as_insert (h : heap) (df : nat) (f : DataFrame)
    (answer : string) (rest : list string) (s s' : store supabase) :
  h !! df = Some f ->
  returns (compatibility_probe (to_dict_records (clean_frame f))) ->
  delete_neq supabase TABLE_NAME "sku" (PyStr "") s = (s', None) ->
  str_lower answer = "yes" ->
  main supabase to_dict_records "replace" h df ("DELETE ALL" :: answer :: rest) s =
    (out ← upload_in_batches supabase TABLE_NAME (to_dict_records (clean_frame f))
             BATCH_SIZE "insert" s';
     Ok (mkMain supabase (Uploaded out) (db (final out)) rest)).
Proof.
  intros Hdf [u Hp] Hdel Hans.
  rewrite (main_cleaned supabase to_dict_records "replace" h df f _ s Hdf), Hp.
  cbn [String.eqb Ascii.eqb Bool.eqb input mbind result_bind fst snd].
  unfold clear_table. cbn [String.eqb Ascii.eqb Bool.eqb negb]. rewrite Hdel.
  unfold confirm_and_upload. cbn [input mbind result_bind fst snd].
  rewrite Hans. reflexivity.
Qed.

End MainReplace.

Lemma sku_frame_probe : returns (compatibility_probe (sku_records (clean_frame sku_frame))).
Proof. eexists. vm_compute. reflexivity. Qed.


Lemma main_replace_refused_witness :
  main table_client sku_records "replace" [sku_frame] 0 ["delete all"; "yes"]%string
    one_row_table =
    Ok (mkMain table_client ClearRefused one_row_table ["yes"]%string).
Proof.
  apply (main_replace_refused table_client sku_records "replace" [sku_frame] 0 sku_frame).
  - reflexivity.
  - apply sku_frame_probe.
  - reflexivity.
  - discriminate.
Defined.

Lemma main_cancelled_witness :
  main table_client sku_records "upsert" [sku_frame] 0 ["y"]%string one_row_table =
    Ok (mkMain table_client Cancelled one_row_table []).
Proof.
  apply (main_cancelled table_client sku_records "upsert" [sku_frame] 0 sku_frame).
  - reflexivity.
  - apply sku_frame_probe.
  - discriminate.
  - discriminate.
Defined.

Lemma main_replace_cleared_then_cancelled_witness :
  main table_client sku_records "replace" [sku_frame] 0 ["DELETE ALL"; "no"]%string
    one_row_table =
    Ok (mkMain table_client Cancelled [] []).
Proof.
  apply (main_replace_cleared_then_cancelled table_client sku_records "replace"
           [sku_frame] 0 sku_frame).
  - reflexivity.
  - apply sku_frame_probe.
  - reflexivity.
  - reflexivity.
  - discriminate.
Defined.


Lemma main_replace_uploads_as_insert_witness :
  exists out,
    main table_client sku_records "replace" [sku_frame] 0 ["DELETE ALL"; "Yes"]%string
      one_row_table =
      Ok (mkMain table_client (Uploaded out) (db (final out)) []) /\
    keys (db (final out)) = [Some "A-1"; Some "A-2"]%string /\
    successful (final out) = 2.
Proof.
  pose proof (main_replace_uploads_as_insert table_client sku_records [sku_frame] 0
                sku_frame "Yes" [] one_row_table [] eq_refl sku_frame_probe
                eq_refl eq_refl) as H.
  destruct (upload_in_batches table_client TABLE_NAME (sku_records (clean_frame sku_frame))
              BATCH_SIZE "insert" []) as [out|e] eqn:Hrun.
  - exists out. split; [exact H|].
    vm_compute in Hrun. inversion Hrun; subst out. split; reflexivity.
  - vm_compute in Hrun. discriminate Hrun.
Defined.

(** ** The cleaner *)

Lemma lstrip_first (s : string) (c : ascii) :
  first_char (lstrip s) = Some c -> is_space c = false.
Proof.
  induction s as [|a s IH]; cbn [lstrip]; [discriminate|].
  destruct (is_space a) eqn:E; [exact IH|].
  cbn. intros H; inversion H; subst. exact E.
Qed.

Lemma rstrip_first (t : string) (c : ascii) :
  first_char (rstrip t) = Some c -> first_char t = Some c.
Proof.
  destruct t as [|a t]; cbn [rstrip]; [discriminate|].
  destruct (rstrip t); [destruct (is_space a); [discriminate|]|]; cbn; auto.
Qed.

Lemma rstrip_last (t : string) (c : ascii) :
  last_char (rstrip t) = Some c -> is_space c = false.
Proof.
  induction t as [|a t IH]; cbn [rstrip]; [discriminate|].
  destruct (rstrip t) as [|b u] eqn:E.
  - destruct (is_space a) eqn:Ea; [discriminate|].
    cbn. intros H; inversion H; subst. exact Ea.
  - intros H. apply IH. exact H.
Qed.

Lemma lstrip_id (t : string) :
  (forall c, first_char t = Some c -> is_space c = false) -> lstrip t = t.
Proof.
  destruct t as [|a t]; cbn [lstrip first_char]; [reflexivity|].
  intros H. rewrite (H a eq_refl). reflexivity.
Qed.

Lemma rstrip_idempotent (t : string) : rstrip (rstrip t) = rstrip t.
Proof.
  induction t as [|a t IH]; cbn [rstrip]; [reflexivity|].
  destruct (rstrip t) as [|b u] eqn:E.
  - destruct (is_space a) eqn:Ea; cbn [rstrip]; [reflexivity|]. rewrite Ea. reflexivity.
  - cbn [rstrip]. cbn [rstrip] in IH. rewrite IH. reflexivity.
Qed.

Lemma strip_idempotent (s : string) : strip (strip s) = strip s.
Proof.
  unfold strip. rewrite (lstrip_id (rstrip (lstrip s))).
  - apply rstrip_idempotent.
  - intros c H. apply rstrip_first in H. eapply lstrip_first, H.
Qed.

Lemma strip_trimmed (s : string) : trimmed (strip s).
Proof.
  unfold strip. split; intros c H.
  - apply rstrip_first in H. eapply lstrip_first, H.
  - eapply rstrip_last, H.
Qed.

Lemma clean_frame_lookup (f : DataFrame) (name : string) :
  clean_frame f !! name = clean_column (float_block_hit f) <$> (f !! name).
Proof.
  unfold clean_frame, df_where_notna, df_replace, clean_column.
  rewrite !lookup_fmap. destruct (f !! name); reflexivity.
Qed.

Lemma clean_column_length (hit : bool) (c : column) :
  column_length (clean_column hit c) = column_length c.
Proof.
  unfold clean_column. destruct c as [xs|xs|xs|xs]; cbn [replace_column].
  - destruct hit; cbn [where_notna_column recast_column strip_column column_length].
    + rewrite !length_map. reflexivity.
    + destruct ((0 <? length xs)%nat && forallb _ xs);
        cbn [strip_column column_length]; rewrite ?length_map; reflexivity.
  - destruct (existsb _ xs);
      cbn [where_notna_column recast_column strip_column column_length];
      rewrite ?length_map; reflexivity.
  - reflexivity.
  - cbn [where_notna_column recast_column strip_column column_length].
    rewrite !length_map. reflexivity.
Qed.

Lemma hit_false_clean (f : DataFrame) (name : string) (c : column) :
  float_block_hit f = false -> f !! name = Some c -> clean_floats c.
Proof.
  intros Hhit Hc xs ->.
  destruct (existsb is_missing_float xs) eqn:E; [|reflexivity].
  assert (float_block_hit f = true); [|congruence].
  unfold float_block_hit. apply existsb_exists. exists (name, Float64 xs).
  split; [|exact E]. apply list_elem_of_In, elem_of_map_to_list. exact Hc.
Qed.

Lemma existsb_false_Forall {A} (p : A -> bool) (l : list A) :
  existsb p l = false <-> Forall (fun x => p x = false) l.
Proof.
  induction l as [|a l IH]; cbn [existsb].
  - split; [constructor|reflexivity].
  - rewrite orb_false_iff, IH. split.
    + intros [Ha Hl]. constructor; assumption.
    + intros H. inversion H; subst. split; assumption.
Qed.

(** The cells of an [object] column after lines 47, 50 and 62. *)
Lemma cleaned_cell (v : value) :
  let w := strip_cell ((fun v => if checknull v then PyNone else v) (replace_object v)) in
  missing_marker w = false /\ forall s, w = PyStr s -> strip s = s.
Proof.
  cbv zeta. unfold replace_object.
  destruct v; try (destruct x); cbn;
    try (split; [reflexivity|intros ? H; discriminate H]).
  split; [reflexivity|]. intros t H. inversion H; subst. apply strip_idempotent.
Qed.

Lemma cleaned_plain_cell (w : value) :
  missing_marker w = false -> (forall s, w <> PyStr s) ->
  let w' := strip_cell ((fun v => if checknull v then PyNone else v) w) in
  missing_marker w' = false /\ forall s, w' <> PyStr s.
Proof.
  cbv zeta. intros Hm Hs. destruct w; try (destruct x); cbn in *;
    try (split; [reflexivity|intros ? H; discriminate H]);
    try discriminate Hm.
  exfalso. eapply Hs. reflexivity.
Qed.

Lemma replace_float_plain (x : spec_float) :
  missing_marker (replace_float x) = false /\ forall s, replace_float x <> PyStr s.
Proof.
  unfold replace_float. destruct (is_missing_float x) eqn:E; cbn;
    (split; [try reflexivity; exact E|intros ? H; discriminate H]).
Qed.

Lemma replace_nullable_plain (o : option Z) :
  missing_marker (replace_nullable o) = false /\ forall s, replace_nullable o <> PyStr s.
Proof. destruct o; cbn; (split; [reflexivity|intros ? H; discriminate H]). Qed.

(** An [object] column built from cells that are neither markers nor
    text is settled once lines 50 and 62 have passed over it. *)
Lemma plain_object_settled {A} (g : A -> value) (xs : list A) :
  (forall a, missing_marker (g a) = false /\ forall s, g a <> PyStr s) ->
  settled (strip_column (recast_column (where_notna_column (Object (map g xs))))).
Proof.
  intros Hg. cbn [where_notna_column recast_column strip_column].
  rewrite !map_map.
  split; [|split; [reflexivity|]].
  - cbn [unified]. apply List.Forall_forall. intros w Hw.
    apply in_map_iff in Hw as (a & <- & _).
    destruct (Hg a) as [Hm Hs]. apply (cleaned_plain_cell (g a) Hm Hs).
  - intros ys s E Hin. inversion E; subst ys.
    apply in_map_iff in Hin as (a & Ha & _).
    destruct (Hg a) as [Hm Hs].
    destruct (cleaned_plain_cell (g a) Hm Hs) as [_ Hn]. exfalso. eapply Hn, Ha.
Qed.

(** Whatever [clean_data] returns for a column is settled. *)
Lemma clean_column_settled (hit : bool) (c : column) :
  (hit = false -> clean_floats c) -> settled (clean_column hit c).
Proof.
  intros Hc. unfold clean_column. destruct c as [xs|xs|xs|xs]; cbn [replace_column].
  - destruct hit.
    + apply plain_object_settled. apply replace_float_plain.
    + specialize (Hc eq_refl xs eq_refl).
      cbn [where_notna_column]. unfold recast_column at 1.
      destruct ((0 <? length xs)%nat
                && forallb (fun x => is_integral x && in_int64 (trunc x)) xs) eqn:E;
        cbn [strip_column].
      * split; [|split; [reflexivity|intros ? ? H; discriminate H]].
        cbn [unified]. apply List.Forall_forall. intros o Ho.
        apply in_map_iff in Ho as (x & <- & _). discriminate.
      * split; [|split; [|intros ? ? H; discriminate H]].
        -- cbn [unified]. apply existsb_false_Forall. exact Hc.
        -- cbn [recast_column]. rewrite E. reflexivity.
  - destruct (existsb (fun o => match o with None => true | Some _ => false end) xs) eqn:E.
    + apply plain_object_settled. apply replace_nullable_plain.
    + cbn [where_notna_column recast_column strip_column].
      split; [|split; [reflexivity|intros ? ? H; discriminate H]].
      cbn [unified]. apply existsb_false_Forall in E.
      eapply Forall_impl; [exact E|]. cbn. intros [n|]; [discriminate|discriminate].
  - cbn [where_notna_column recast_column strip_column].
    split; [exact I|split; [reflexivity|intros ? ? H; discriminate H]].
  - cbn [where_notna_column recast_column strip_column]. rewrite !map_map.
    split; [|split; [reflexivity|]].
    + cbn [unified]. apply List.Forall_forall. intros w Hw.
      apply in_map_iff in Hw as (v & <- & _). apply (cleaned_cell v).
    + intros ys s E Hin. inversion E; subst ys.
      apply in_map_iff in Hin as (v & Hv & _). apply (proj2 (cleaned_cell v) s Hv).
Qed.


Lemma clean_frame_settled (f : DataFrame) (name : string) (c' : column) :
  clean_frame f !! name = Some c' -> settled c'.
Proof.
  rewrite clean_frame_lookup. destruct (f !! name) as [c|] eqn:Hc; [|discriminate].
  cbn. intros H; inversion H; subst c'. apply clean_column_settled.
  intros Hhit. eapply hit_false_clean; eauto.
Qed.



(** X19: [clean_data] keeps the shape of the frame: the frame returned has
    the same columns, each with as many cells as before. *)
Theorem clean_data_keeps_shape (h : heap) (df : nat) (f : DataFrame) :
  h !! df = Some f ->
  exists h' df' f',
    clean_data h df = Ok (h', df') /\ h' !! df' = Some f' /\
    forall name,
      match f !! name, f' !! name with
      | Some c, Some c' => column_length c' = column_length c
      | None, None => True
      | _, _ => False
      end.
Proof.
  intros Hdf. destruct (clean_data_result h df f Hdf) as (h' & df' & Hrun & Hout).
  exists h', df', (clean_frame f). split; [exact Hrun|]. split; [exact Hout|].
  intros name. rewrite clean_frame_lookup. destruct (f !! name) as [c|]; cbn; [|exact I].
  apply clean_column_length.
Qed.


(** X21: after [clean_data] no text cell of an [object] column starts or
    ends with white space. *)
Theorem clean_data_trims_text (h : heap) (df : nat) (f : DataFrame) :
  h !! df = Some f ->
  exists h' df' f',
    clean_data h df = Ok (h', df') /\ h' !! df' = Some f' /\
    forall name xs s, f' !! name = Some (Object xs) -> In (PyStr s) xs -> trimmed s.
Proof.
  intros Hdf. destruct (clean_data_result h df f Hdf) as (h' & df' & Hrun & Hout).
  exists h', df', (clean_frame f). split; [exact Hrun|]. split; [exact Hout|].
  intros name xs s Hc Hin.
  destruct (clean_frame_settled f name _ Hc) as (_ & _ & Hs).
  rewrite <- (Hs xs s eq_refl Hin). apply strip_trimmed.
Qed.


Lemma clean_data_keeps_shape_witness :
  exists h' df' f',
    clean_data [mixed_frame] 0 = Ok (h', df') /\ h' !! df' = Some f' /\
    forall name,
      match mixed_frame !! name, f' !! name with
      | Some c, Some c' => column_length c' = column_length c
      | None, None => True
      | _, _ => False
      end.
Proof. exact (clean_data_keeps_shape [mixed_frame] 0 mixed_frame eq_refl). Defined.


Lemma clean_data_trims_text_witness :
  exists h' df' f',
    clean_data [mixed_frame] 0 = Ok (h', df') /\ h' !! df' = Some f' /\
    forall name xs s, f' !! name = Some (Object xs) -> In (PyStr s) xs -> trimmed s.
Proof. exact (clean_data_trims_text [mixed_frame] 0 mixed_frame eq_refl). Defined.


Example clean_data_mixed_frame :
  exists h',
    clean_data [mixed_frame] 0 = Ok (h', 2%nat) /\
    h' !! 2%nat =
      Some (<[ "name" := Object [PyStr "abc"; PyNone] ]>
              {[ "qty" := Object [PyFloat (float_of_Z 1); PyNone] ]} : DataFrame).
Proof.
  eexists. split; [apply clean_data_spec; reflexivity|]. vm_compute. reflexivity.
Qed.
